(** * pricetracker-v2: the Amazon product-page parser

    A shallow embedding of [backend/app/web/amazon.py] (class
    [AmazonPageParser]) together with the small parts of the Python
    runtime it relies on: [str] operations, the [re] patterns it searches
    with, [float()] on the numerals it builds, the BeautifulSoup tree
    queries it issues and the [logging] calls it makes.

    Layout: the runtime models come first ([PyStr], [Re], [PyFloat],
    [Bs4], [Py]), then the parser's methods under their source names,
    then the properties of the specification. *)

From Stdlib Require Import String Ascii.
From Stdlib Require Import List Bool NArith ZArith Lia.
From Stdlib Require Import SpecFloat.
Import ListNotations.

Set Implicit Arguments.

(* ===================================================================== *)
(** ** Python [str]                                                       *)
(* ===================================================================== *)

(** A Python [str] is a sequence of Unicode code points. *)
Module PyStr.

Definition char := N.
Definition pystr := list char.

(** ASCII literals of the source, as code-point sequences. *)
Definition py (s : string) : pystr :=
  map N_of_ascii (list_ascii_of_string s).

Definition chr (s : string) : char :=
  match s with
  | String a _ => N_of_ascii a
  | EmptyString => 0%N
  end.

Fixpoint eqb (a b : pystr) : bool :=
  match a, b with
  | [], [] => true
  | x :: a', y :: b' => N.eqb x y && eqb a' b'
  | _, _ => false
  end.

(** Code points of the digit zero of every decimal-digit script (general
    category Nd, Unicode 14): each is followed by its digits one to nine.
    [\d] in a [str] pattern and [float()] both go by this category. *)
Definition decimal_zeros : list N :=
  [48; 1632; 1776; 1984; 2406; 2534; 2662; 2790; 2918; 3046; 3174; 3302;
   3430; 3558; 3664; 3792; 3872; 4160; 4240; 6112; 6160; 6470; 6608; 6784;
   6800; 6992; 7088; 7232; 7248; 42528; 43216; 43264; 43472; 43504; 43600;
   44016; 65296; 66720; 68912; 69734; 69872; 69942; 70096; 70384; 70736;
   70864; 71248; 71360; 71472; 71904; 72016; 72784; 73040; 73120; 92768;
   92864; 93008; 120782; 120792; 120802; 120812; 120822; 123200; 123632;
   125264; 130032]%N.

Definition digit_value (c : char) : option N :=
  match find (fun z => (z <=? c) && (c <? z + 10))%N decimal_zeros with
  | Some z => Some (c - z)%N
  | None => None
  end.

Definition is_digit (c : char) : bool :=
  match digit_value c with Some _ => true | None => false end.

(** The code points [str.strip()] removes ([str.isspace]). *)
Definition whitespace : list N :=
  [9; 10; 11; 12; 13; 28; 29; 30; 31; 32; 133; 160; 5760; 8192; 8193; 8194;
   8195; 8196; 8197; 8198; 8199; 8200; 8201; 8202; 8232; 8233; 8239; 8287;
   12288]%N.

Definition is_space (c : char) : bool := existsb (N.eqb c) whitespace.

Fixpoint lstrip (s : pystr) : pystr :=
  match s with
  | c :: s' => if is_space c then lstrip s' else s
  | [] => []
  end.

Definition rstrip (s : pystr) : pystr := rev (lstrip (rev s)).

(** [s.strip()] *)
Definition strip (s : pystr) : pystr := rstrip (lstrip s).

(** [s.replace(c, "")] for a one-character [c]. *)
Definition remove_char (c : char) (s : pystr) : pystr :=
  filter (fun x => negb (N.eqb x c)) s.

(** [sep.join(l)] *)
Fixpoint join (sep : pystr) (l : list pystr) : pystr :=
  match l with
  | [] => []
  | [x] => x
  | x :: l' => x ++ sep ++ join sep l'
  end.

(** Truth value of a [str]: non-empty. *)
Definition truthy (s : pystr) : bool :=
  match s with [] => false | _ :: _ => true end.

End PyStr.
Import PyStr.

(* ===================================================================== *)
(** ** The [re] patterns of the parser                                    *)
(* ===================================================================== *)

(** A backtracking matcher for the fragment of [re] syntax the parser
    uses: literals, character sets, greedy bounded repetition of a set,
    sequence, greedy optional non-capturing group, capturing group. *)
Module Re.

Inductive charset :=
| CDigit                        (* \d *)
| CChar (c : char)              (* a literal inside [...] *)
| CUnion (a b : charset).

Fixpoint in_set (cs : charset) (c : char) : bool :=
  match cs with
  | CDigit => is_digit c
  | CChar d => N.eqb c d
  | CUnion a b => in_set a c || in_set b c
  end.

Inductive regex :=
| Lit (c : char)                               (* \$  %  \. *)
| Rep (cs : charset) (lo : nat) (hi : option nat)  (* cs{lo,hi}, cs+ *)
| Seq (r1 r2 : regex)
| Opt (r : regex)                              (* (?:r)? *)
| Group (r : regex).                           (* (r) *)

Definition Plus (cs : charset) : regex := Rep cs 1 None.

(** One way of matching at the start of a string: the text consumed, the
    captured groups in order of their opening parenthesis, the rest. *)
Definition attempt := (pystr * list pystr * pystr)%type.

Definition dec_hi (hi : option nat) : option (option nat) :=
  match hi with
  | None => Some None
  | Some 0 => None
  | Some (S n) => Some (Some n)
  end.

Definition stop_here (lo : nat) (s : pystr) : list attempt :=
  match lo with 0 => [([], [], s)] | S _ => [] end.

(** Greedy repetition: the longer matches come first. *)
Fixpoint rep (cs : charset) (lo : nat) (hi : option nat) (s : pystr)
  : list attempt :=
  match s with
  | c :: s' =>
      match dec_hi hi with
      | Some hi' =>
          if in_set cs c
          then map (fun '(u, g, r) => (c :: u, g, r)) (rep cs (pred lo) hi' s')
               ++ stop_here lo s
          else stop_here lo s
      | None => stop_here lo s
      end
  | [] => stop_here lo s
  end.

(** All the ways [r] matches a prefix of [s], in the order a backtracking
    engine tries them. *)
Fixpoint attempts (r : regex) (s : pystr) : list attempt :=
  match r with
  | Lit c =>
      match s with
      | x :: s' => if N.eqb x c then [([x], [], s')] else []
      | [] => []
      end
  | Rep cs lo hi => rep cs lo hi s
  | Seq r1 r2 =>
      flat_map (fun '(u1, g1, s1) =>
                  map (fun '(u2, g2, s2) => (u1 ++ u2, g1 ++ g2, s2))
                      (attempts r2 s1))
               (attempts r1 s)
  | Opt r1 => attempts r1 s ++ [([], [], s)]
  | Group r1 => map (fun '(u, g, s1) => (u, u :: g, s1)) (attempts r1 s)
  end.

(** A match object: [group()] and the numbered groups. *)
Record Match := { group0 : pystr; groups : list pystr }.

Definition group1 (m : Match) : pystr := hd [] (groups m).

(** [re.search(r, s)]: the first attempt at the leftmost position that
    has one. *)
Fixpoint search (r : regex) (s : pystr) : option Match :=
  match attempts r s with
  | (u, g, _) :: _ => Some {| group0 := u; groups := g |}
  | [] =>
      match s with
      | _ :: s' => search r s'
      | [] => None
      end
  end.

End Re.

(* ===================================================================== *)
(** ** Python [float]                                                     *)
(* ===================================================================== *)

(** A Python [float] is an IEEE 754 binary64 value; [float(s)] converts a
    numeral to the nearest one (ties to even), overflowing to infinity. *)
Module PyFloat.

Definition float := spec_float.

Definition prec : Z := 53.
Definition emax : Z := 1024.

Fixpoint pow10 (k : nat) : positive :=
  match k with
  | 0 => 1
  | S k' => 10 * pow10 k'
  end.

(** The binary64 value nearest to [m / 10^k]: the correctly rounded
    quotient of the two integers, the way a decimal numeral is read. *)
Definition of_decimal (m : N) (k : nat) : float :=
  match m with
  | N0 => S754_zero false
  | Npos p =>
      SFdiv prec emax (S754_finite false p 0)
                      (S754_finite false (pow10 k) 0)
  end.

(** Leading decimal digits of [s]: their value on top of [acc], how many
    they are, and what follows them. *)
Fixpoint read_digits (s : pystr) (acc : N) (n : nat) : N * nat * pystr :=
  match s with
  | c :: s' =>
      match digit_value c with
      | Some d => read_digits s' (10 * acc + d)%N (S n)
      | None => (acc, n, s)
      end
  | [] => (acc, n, [])
  end.

(** The numeral grammar of [float()] over digits and the period, the only
    characters the parser ever passes to it: digits with an optional
    period and optional further digits, at least one digit in all.  The
    result [(m, k)] stands for [m / 10^k]; [None] is a rejected numeral.
    (Signs, exponents, underscores, blanks and the words inf and nan,
    which [float()] also reads, are outside this alphabet.) *)
Definition parse_decimal (s : pystr) : option (N * nat) :=
  let '(m1, n1, r1) := read_digits s 0 0 in
  match r1 with
  | [] => match n1 with 0 => None | S _ => Some (m1, 0) end
  | c :: r =>
      if N.eqb c (chr ".") then
        let '(m2, n2, r2) := read_digits r m1 0 in
        match r2 with
        | [] => match n1 + n2 with 0 => None | S _ => Some (m2, n2) end
        | _ :: _ => None
        end
      else None
  end.

(** [float(s)]; [None] stands for [ValueError]. *)
Definition float_of_str (s : pystr) : option float :=
  match parse_decimal s with
  | Some (m, k) => Some (of_decimal m k)
  | None => None
  end.

(** Truth value of a [float]: anything but zero. *)
Definition truthy (x : float) : bool :=
  match x with S754_zero _ => false | _ => true end.

Definition zero : float := S754_zero false.

(** [x < y], [x <= y] *)
Definition ltb (x y : float) : bool := SFltb x y.
Definition leb (x y : float) : bool := SFleb x y.

Definition is_finite (x : float) : bool :=
  match x with
  | S754_zero _ | S754_finite _ _ _ => true
  | S754_infinity _ | S754_nan => false
  end.

Definition is_nan (x : float) : bool :=
  match x with S754_nan => true | _ => false end.

(** A bound below which no conversion overflows. *)
Definition big : Z := 10 ^ 308.

(** Sign bit clear and not a NaN. *)
Definition positive_sign (x : float) : Prop :=
  match x with
  | S754_zero s | S754_infinity s | S754_finite s _ _ => s = false
  | S754_nan => False
  end.

(** The number a run of decimal digits denotes, on top of [acc]. *)
Fixpoint digits_value (ds : pystr) (acc : N) : N :=
  match ds with
  | [] => acc
  | c :: ds' =>
      digits_value ds' (10 * acc + match digit_value c with
                                   | Some d => d
                                   | None => 0
                                   end)%N
  end.

End PyFloat.

(* ===================================================================== *)
(** ** BeautifulSoup trees                                                *)
(* ===================================================================== *)

(** The parsed document as the parser queries it: tags with a name, an
    attribute dictionary and children, and text nodes.  Nodes that neither
    [find] nor [get_text] ever sees (comments and the like) are left out
    of the tree. *)
Module Bs4.

(** An attribute value: one string, or the list of a multi-valued
    attribute such as [class]. *)
Inductive AttrValue :=
| AttrStr (s : pystr)
| AttrList (l : list pystr).

Definition Attrs := list (pystr * AttrValue).

Inductive Tag :=
| mkTag (name : pystr) (attrs : Attrs) (contents : list PageElement)
with PageElement :=
| NavigableString (s : pystr)
| Element (t : Tag).

Definition name (t : Tag) : pystr := let 'mkTag n _ _ := t in n.
Definition attrs (t : Tag) : Attrs := let 'mkTag _ a _ := t in a.
Definition contents (t : Tag) : list PageElement := let 'mkTag _ _ c := t in c.

(** [tag.get(key)] *)
Fixpoint get (a : Attrs) (key : pystr) : option AttrValue :=
  match a with
  | [] => None
  | (k, v) :: a' => if PyStr.eqb k key then Some v else get a' key
  end.

(** [tag.has_attr(key)] *)
Definition has_attr (t : Tag) (key : pystr) : bool :=
  match get (attrs t) key with Some _ => true | None => false end.

(** Does an attribute value match a wanted string: a plain value must
    equal it; a multi-valued one matches when one of its items does, or
    when the items joined by a blank do; a missing attribute matches only
    an empty wanted value. *)
Definition attr_matches (v : option AttrValue) (want : pystr) : bool :=
  match v with
  | None => negb (PyStr.truthy want)
  | Some (AttrStr s) => PyStr.eqb s want
  | Some (AttrList l) =>
      existsb (fun item => PyStr.eqb item want) l
      || PyStr.eqb (join (py " ") l) want
  end.

(** The arguments of a [find] call: an optional tag name and attribute
    constraints ([id=...], [class_=...]). *)
Record Query := { q_name : option pystr; q_attrs : list (pystr * pystr) }.

Definition matches (q : Query) (t : Tag) : bool :=
  match q_name q with
  | Some n => PyStr.eqb (name t) n
  | None => true
  end
  && forallb (fun '(k, want) => attr_matches (get (attrs t) k) want)
             (q_attrs q).

(** [tag.find(...)]: the first descendant tag, in document order, that
    matches; [None] when there is none. *)
Fixpoint find (q : Query) (t : Tag) : option Tag :=
  let fix first (l : list PageElement) : option Tag :=
    match l with
    | [] => None
    | NavigableString _ :: l' => first l'
    | Element c :: l' =>
        if matches q c then Some c
        else match find q c with
             | Some r => Some r
             | None => first l'
             end
    end in
  first (contents t).

(** The strings below a tag, in document order. *)
Fixpoint strings (t : Tag) : list pystr :=
  let fix go (l : list PageElement) : list pystr :=
    match l with
    | [] => []
    | NavigableString s :: l' => s :: go l'
    | Element c :: l' => strings c ++ go l'
    end in
  go (contents t).

(** [tag.get_text(strip=True)]: every string stripped, the empty ones
    dropped, the rest concatenated. *)
Definition get_text_strip (t : Tag) : pystr :=
  concat (filter PyStr.truthy (map strip (strings t))).

(** Shorthands for the three shapes of query in the parser. *)
Definition by_id (i : string) : Query :=
  {| q_name := None; q_attrs := [(py "id", py i)] |}.
Definition by_name_id (n i : string) : Query :=
  {| q_name := Some (py n); q_attrs := [(py "id", py i)] |}.
Definition by_name_class (n c : string) : Query :=
  {| q_name := Some (py n); q_attrs := [(py "class", py c)] |}.
Definition by_name (n : string) : Query :=
  {| q_name := Some (py n); q_attrs := [] |}.

(** The root object of a document. *)
Definition document (l : list PageElement) : Tag :=
  mkTag (py "[document]") [] l.

End Bs4.

(* ===================================================================== *)
(** ** Effects: logging calls and exceptions                              *)
(* ===================================================================== *)

Module Py.

Inductive Level := INFO | WARNING | ERROR.

(** One call on the logger: level, message template, [%s] arguments. *)
Record LogRecord := { level : Level; msg : pystr; args : list pystr }.

Inductive Exn := TypeError | AttributeError | UnboundLocalError | ValueError.

Inductive Outcome (A : Type) :=
| Return (a : A)
| Raise (e : Exn).
Arguments Return {A} a.
Arguments Raise {A} e.

(** A computation appends to the log and returns or raises. *)
Definition M (A : Type) := list LogRecord -> Outcome A * list LogRecord.

Definition ret {A} (a : A) : M A := fun l => (Return a, l).

Definition bind {A B} (c : M A) (f : A -> M B) : M B :=
  fun l =>
    match c l with
    | (Return a, l') => f a l'
    | (Raise e, l') => (Raise e, l')
    end.

Definition raise {A} (e : Exn) : M A := fun l => (Raise e, l).

Definition log (lv : Level) (m : string) (a : list pystr) : M unit :=
  fun l => (Return tt, l ++ [{| level := lv; msg := py m; args := a |}]).

Definition run {A} (c : M A) : Outcome A * list LogRecord := c [].

End Py.
Import Py.

Declare Scope py_scope.
Delimit Scope py_scope with py.
Notation "x <- c ;; k" := (bind c (fun x => k))
  (at level 61, c at next level, right associativity) : py_scope.
Notation "' pat <- c ;; k" :=
  (bind c (fun x => match x with pat => k end))
  (at level 61, pat pattern, c at next level, right associativity) : py_scope.
Notation "c ;; k" := (bind c (fun _ => k))
  (at level 61, right associativity) : py_scope.
Open Scope py_scope.

Module PyOps.

Definition exn_eqb (a b : Exn) : bool :=
  match a, b with
  | TypeError, TypeError | AttributeError, AttributeError
  | UnboundLocalError, UnboundLocalError | ValueError, ValueError => true
  | _, _ => false
  end.

(** [try: c  except e: h] *)
Definition try_except {A} (c : M A) (e : Exn) (h : M A) : M A :=
  fun l =>
    match c l with
    | (Raise e', l') => if exn_eqb e e' then h l' else (Raise e', l')
    | r => r
    end.

(** [float(s)] as a call: [ValueError] on a rejected numeral. *)
Definition float (s : pystr) : M PyFloat.float :=
  match PyFloat.float_of_str s with
  | Some x => ret x
  | None => raise ValueError
  end.

(** [node.get_text(strip=True)] where [node] may be [None]. *)
Definition get_text (node : option Bs4.Tag) : M pystr :=
  match node with
  | Some t => ret (Bs4.get_text_strip t)
  | None => raise AttributeError
  end.

(** Reading a local variable that an earlier branch may not have
    assigned. *)
Definition read_local {A} (v : option A) : M A :=
  match v with
  | Some a => ret a
  | None => raise UnboundLocalError
  end.

(** [a, b = v] where [v] may be [None]. *)
Definition unpack2 {A B} (v : option (A * B)) : M (A * B) :=
  match v with
  | Some p => ret p
  | None => raise TypeError
  end.

(** [a or b] on strings. *)
Definition or_str (a b : pystr) : pystr := if PyStr.truthy a then a else b.

(** [str(x)] inside an f-string, for an optional string. *)
Definition format_opt (x : option pystr) : pystr :=
  match x with Some s => s | None => py "None" end.

End PyOps.
Import PyOps.

(* ===================================================================== *)
(** ** [class AmazonPageParser]                                           *)
(* ===================================================================== *)

Module AmazonPageParser.

Import Bs4 Re.

Record Self := { soup : Tag; user_product_name : option pystr }.

(** [f"for {self.user_product_name}" or ""] *)
Definition for_name (self : Self) : pystr :=
  or_str (py "for " ++ format_opt (user_product_name self)) (py "").

Section Construction.

(** The tree builder behind [BeautifulSoup(markup, "lxml")]: from the
    markup text to the top-level nodes of the document. *)
Variable lxml : pystr -> list PageElement.

Definition BeautifulSoup (markup : option pystr) : M Tag :=
  match markup with
  | Some text => ret (document (lxml text))
  | None => raise TypeError
  end.

Definition __init__ (html_content : option pystr)
           (user_product_name : option pystr) : M Self :=
  soup <- BeautifulSoup html_content ;;
  ret {| soup := soup; user_product_name := user_product_name |}.

End Construction.

Definition parse_product_title (self : Self) : M (option pystr) :=
  let title_tag := find (by_id "title_feature_div") (soup self) in
  match title_tag with
  | Some title_tag =>
      let title := get_text_strip title_tag in
      ret (Some title)
  | None =>
      log WARNING "Product title not found %s" [for_name self] ;;
      ret None
  end.

(** [r"[\d,.]+"] *)
Definition price_re : regex :=
  Plus (CUnion CDigit (CUnion (CChar (chr ",")) (CChar (chr ".")))).

Definition parse_product_price (self : Self) : M (option PyFloat.float) :=
  let price_element :=
    find (by_name_id "div" "corePrice_feature_div") (soup self) in
  match price_element with
  | None =>
      log WARNING "Product price not found %s" [for_name self] ;;
      ret None
  | Some price_element =>
      let price_text_tag :=
        find (by_name_class "span" "a-offscreen") price_element in
      match price_text_tag with
      | None =>
          log WARNING "Product price not found %s" [for_name self] ;;
          ret None
      | Some price_text_tag =>
          let price_text := get_text_strip price_text_tag in
          let price_match := search price_re price_text in
          match price_match with
          | Some price_match =>
              let price_str := remove_char (chr ",") (group0 price_match) in
              try_except
                (x <- float price_str ;; ret (Some x))
                ValueError
                (log ERROR "Failed to convert price to float %s"
                     [for_name self] ;;
                 ret None)
          | None =>
              log WARNING "Product price not found %s" [for_name self] ;;
              ret None
          end
      end
  end.

(** The dictionary [parse_product_seller] returns: both keys, each value
    a string or [None]. *)
Record Seller := { ships_from : option pystr; sold_by : option pystr }.

(** [x if x else None] *)
Definition if_truthy (x : pystr) : option pystr :=
  if PyStr.truthy x then Some x else None.

Definition feature_text : Query :=
  by_name_class "span" "a-size-small offer-display-feature-text-message".

Definition parse_product_seller (self : Self) : M (option Seller) :=
  let container_element := find (by_id "desktop_qualifiedBuyBox") (soup self) in
  match container_element with
  | None =>
      log WARNING "Container element not found in the HTML content." [] ;;
      ret None
  | Some container_element =>
  let seller_container :=
    find (by_id "offer-display-features") container_element in
  match seller_container with
  | None =>
      log WARNING "Seller container not found in the HTML content." [] ;;
      ret None
  | Some seller_container =>
  let ships_from_element :=
    find (by_id "fulfillerInfoFeature_feature_div") seller_container in
  let sold_by_element :=
    find (by_id "merchantInfoFeature_feature_div") seller_container in
  match ships_from_element with
  | None => log WARNING "Ships from element not found in the HTML content." []
  | Some _ => ret tt
  end ;;
  ships_from_data <-
    match ships_from_element with
    | Some e => t <- get_text (find feature_text e) ;; ret (Some t)
    | None => ret None
    end ;;
  match sold_by_element with
  | None => log WARNING "Sold by element not found in the HTML content." []
  | Some _ => ret tt
  end ;;
  sold_by_data <-
    match sold_by_element with
    | Some e => t <- get_text (find feature_text e) ;; ret (Some t)
    | None => ret None
    end ;;
  match ships_from_element, sold_by_element with
  | None, None =>
      log WARNING
          "Neither ships from nor sold by elements found in the HTML content."
          [] ;;
      ret None
  | _, _ =>
      a <- read_local ships_from_data ;;
      b <- read_local sold_by_data ;;
      ret (Some {| ships_from := if_truthy a; sold_by := if_truthy b |})
  end
  end
  end.

Definition parse_product_image (self : Self) : M (option AttrValue) :=
  let image_container := find (by_id "imgTagWrapperId") (soup self) in
  match image_container with
  | None =>
      log WARNING "Product image container not found %s" [for_name self] ;;
      ret None
  | Some image_container =>
      let img_tag := find (by_name "img") image_container in
      match img_tag with
      | Some img =>
          if has_attr img (py "src") then ret (get (attrs img) (py "src"))
          else
            log WARNING "Product image tag not found %s" [for_name self] ;;
            ret None
      | None =>
          log WARNING "Product image tag not found %s" [for_name self] ;;
          ret None
      end
  end.

(** [\d+(?:\.\d{1,2})?] *)
Definition number_re : regex :=
  Seq (Plus CDigit) (Opt (Seq (Lit (chr ".")) (Rep CDigit 1 (Some 2)))).

(** [r"\$(\d+(?:\.\d{1,2})?)"] *)
Definition fixed_amount_re : regex := Seq (Lit (chr "$")) (Group number_re).

(** [r"(\d+(?:\.\d{1,2})?)%"] *)
Definition percent_re : regex := Seq (Group number_re) (Lit (chr "%")).

Definition check_coupon_type (text : pystr)
  : M (option (pystr * PyFloat.float)) :=
  let fixed_amount_match := search fixed_amount_re text in
  match fixed_amount_match with
  | Some fixed_amount_match =>
      amount <- float (group1 fixed_amount_match) ;;
      ret (Some (py "fixed", amount))
  | None =>
      let percent_match := search percent_re text in
      match percent_match with
      | Some percent_match =>
          percent <- float (group1 percent_match) ;;
          ret (Some (py "percentage", percent))
      | None => ret None
      end
  end.

(** The dictionary [parse_product_coupon] returns. *)
Record Coupon := { type : pystr; amount : PyFloat.float }.

Definition parse_product_coupon (self : Self) : M (option Coupon) :=
  let coupon_element :=
    find (by_id "promoPriceBlockMessage_feature_div") (soup self) in
  match coupon_element with
  | None =>
      log INFO "No coupon found %s" [for_name self] ;;
      ret None
  | Some coupon_element =>
      let coupon_message_element :=
        find (by_name_class "span" "a-color-success couponLabelText")
             coupon_element in
      let coupon_message :=
        match coupon_message_element with
        | None => get_text_strip coupon_element
        | Some e => get_text_strip e
        end in
      parsed_discount <- check_coupon_type coupon_message ;;
      '(type, discount) <-
        unpack2 (match parsed_discount with
                 | Some p => Some p
                 | None => None
                 end) ;;
      if negb (PyStr.truthy type) && negb (PyFloat.truthy discount) then
        log WARNING "Unable to determine coupon type %s" [for_name self] ;;
        ret None
      else
        ret (Some {| type := type; amount := discount |})
  end.

End AmazonPageParser.

(* ===================================================================== *)
(** ** Vocabulary of the properties                                       *)
(* ===================================================================== *)

Module Terms.

Import Bs4 AmazonPageParser.

(** The message [parse_product_coupon] classifies: the text of the coupon
    label when the container has one, else the text of the container. *)
Definition coupon_message_of (coupon_element : Tag) : pystr :=
  match find (by_name_class "span" "a-color-success couponLabelText")
             coupon_element with
  | None => get_text_strip coupon_element
  | Some e => get_text_strip e
  end.

(** The four field extractors called one after the other on a freshly
    built parser, the way a caller of the class would. *)
Definition four_fields (lxml : pystr -> list PageElement)
           (html_content : option pystr) (name : option pystr)
  : M (option pystr * option PyFloat.float * option AttrValue
       * option Seller) :=
  self <- __init__ lxml html_content name ;;
  title <- parse_product_title self ;;
  price <- parse_product_price self ;;
  image <- parse_product_image self ;;
  seller <- parse_product_seller self ;;
  ret (title, price, image, seller).

(** The three ways [check_coupon_type] can go; it never raises and never
    logs. *)
Inductive Classified (text : pystr)
  : Outcome (option (pystr * PyFloat.float)) * list LogRecord -> Prop :=
| IsFixed m x :
    Re.search fixed_amount_re text = Some m ->
    PyFloat.float_of_str (Re.group1 m) = Some x ->
    Classified text (Return (Some (py "fixed", x)), [])
| IsPercentage m x :
    Re.search fixed_amount_re text = None ->
    Re.search percent_re text = Some m ->
    PyFloat.float_of_str (Re.group1 m) = Some x ->
    Classified text (Return (Some (py "percentage", x)), [])
| IsUnclassified :
    Re.search fixed_amount_re text = None ->
    Re.search percent_re text = None ->
    Classified text (Return None, []).

(** Log records by level. *)
Definition warning (m : string) (a : list pystr) : LogRecord :=
  {| level := WARNING; msg := py m; args := a |}.
Definition error (m : string) (a : list pystr) : LogRecord :=
  {| level := ERROR; msg := py m; args := a |}.

(** The warnings of [parse_product_seller] for one missing node. *)
Definition ships_from_missing : LogRecord :=
  warning "Ships from element not found in the HTML content." [].
Definition sold_by_missing : LogRecord :=
  warning "Sold by element not found in the HTML content." [].

(** The warning naming the node that is not there, given the result of
    looking for the "ships from" node. *)
Definition absent_warning (ships_from_element : option Tag) : LogRecord :=
  match ships_from_element with
  | Some _ => sold_by_missing
  | None => ships_from_missing
  end.

(** The characters of a price numeral: [[\d,.]]. *)
Definition price_char (c : char) : bool :=
  Re.in_set (Re.CUnion Re.CDigit
               (Re.CUnion (Re.CChar (chr ",")) (Re.CChar (chr ".")))) c.

(** Text free of digits, commas and periods, such as a currency symbol. *)
Definition plain (s : pystr) : Prop := Forall (fun c => price_char c = false) s.

(** How many periods a text holds. *)
Definition periods (s : pystr) : nat := count_occ N.eq_dec s (chr ".").

(** The normalisation the specification words: keep the digits and the
    decimal point, drop everything else. *)
Definition keep_digits_and_point (s : pystr) : pystr :=
  filter (fun c => is_digit c || N.eqb c (chr ".")) s.

(** The floats 10.0, 15.0 and the one written 1234.56. *)
Definition f10 : PyFloat.float := S754_finite false 5629499534213120 (-49).
Definition f15 : PyFloat.float := S754_finite false 8444249301319680 (-49).
Definition f1234_56 : PyFloat.float :=
  S754_finite false 5429652300748554 (-42).

(** [x] is exactly the integer [n]. *)
Definition is_integer (x : PyFloat.float) (n : Z) : Prop :=
  match x with
  | S754_finite false m e =>
      (Zpos m * 2 ^ Z.max e 0 = n * 2 ^ Z.max (- e) 0)%Z
  | _ => False
  end.

(** [x] lies within half a unit in the last place of [n / d]. *)
Definition nearest_to (x : PyFloat.float) (n d : Z) : Prop :=
  match x with
  | S754_finite false m e =>
      let a := (2 ^ Z.max e 0)%Z in
      let b := (2 ^ Z.max (- e) 0)%Z in
      (2 * Z.abs (Zpos m * a * d - n * b) <= a * d)%Z
  | _ => False
  end.

End Terms.

(* ===================================================================== *)
(** ** Sample pages                                                       *)
(* ===================================================================== *)

(** Small documents in the shape of the retailer's markup, for running
    the parser on concrete input. *)
Module Pages.

Import Bs4 AmazonPageParser.
Local Open Scope string_scope.

Definition text (s : string) : PageElement := NavigableString (py s).

Definition div (id : string) (children : list PageElement) : PageElement :=
  Element (mkTag (py "div") [(py "id", AttrStr (py id))] children).

Definition span (classes : list string) (children : list PageElement)
  : PageElement :=
  Element (mkTag (py "span") [(py "class", AttrList (map py classes))]
                 children).

(** The nodes the tree builder makes of a page with the given body. *)
Definition nodes (body : list PageElement) : list PageElement :=
  [Element (mkTag (py "html") [] [Element (mkTag (py "body") [] body)])].

Definition page (body : list PageElement) : Self :=
  {| soup := document (nodes body); user_product_name := None |}.

(** What [BeautifulSoup("", "lxml")] holds: no node at all. *)
Definition empty_page : Self :=
  {| soup := document []; user_product_name := None |}.

Definition price_element (s : pystr) : PageElement :=
  div "corePrice_feature_div"
      [span ["a-offscreen"] [NavigableString s]].

Definition price_page (s : pystr) : Self := page [price_element s].

Definition coupon_element (s : string) : PageElement :=
  div "promoPriceBlockMessage_feature_div"
      [span ["a-color-success"; "couponLabelText"] [text s]].

Definition coupon_page (s : string) : Self := page [coupon_element s].

Definition feature (id : string) (s : string) : PageElement :=
  div id [span ["a-size-small"; "offer-display-feature-text-message"]
               [text s]].

Definition buy_box (features : list PageElement) : Self :=
  page [div "desktop_qualifiedBuyBox"
            [div "offer-display-features" features]].

Definition ships_from_only : Self :=
  buy_box [feature "fulfillerInfoFeature_feature_div" "Amazon.com"].

Definition sold_by_only : Self :=
  buy_box [feature "merchantInfoFeature_feature_div" "Acme Ltd"].

(** A tree builder that knows one page besides the empty one. *)
Definition one_page_builder (markup : pystr) (l : list PageElement)
  : pystr -> list PageElement :=
  fun s => if PyStr.eqb s markup then l else [].

Definition limited_offer_markup : pystr :=
  py ("<div id='promoPriceBlockMessage_feature_div'>"
      ++ "<span class='a-color-success couponLabelText'>"
      ++ "Limited time offer</span></div>").

End Pages.

(* ===================================================================== *)
(** ** What a pattern can match                                           *)
(* ===================================================================== *)

Module ReSpec.

Import Re.

Definition within (hi : option nat) (n : nat) : Prop :=
  match hi with Some h => n <= h | None => True end.

(** [Matches r u g]: the pattern [r] matches exactly the text [u],
    capturing the groups [g]. *)
Inductive Matches : regex -> pystr -> list pystr -> Prop :=
| MLit c : Matches (Lit c) [c] []
| MRep cs lo hi u :
    Forall (fun c => in_set cs c = true) u ->
    lo <= length u -> within hi (length u) ->
    Matches (Rep cs lo hi) u []
| MSeq r1 r2 u1 g1 u2 g2 :
    Matches r1 u1 g1 -> Matches r2 u2 g2 ->
    Matches (Seq r1 r2) (u1 ++ u2) (g1 ++ g2)
| MOptSome r u g : Matches r u g -> Matches (Opt r) u g
| MOptNone r : Matches (Opt r) [] []
| MGroup r u g : Matches r u g -> Matches (Group r) u (u :: g).

(** The shape of the numeral both coupon patterns capture: digits, then
    possibly a period and one or two digits. *)
Definition all_digits (s : pystr) : Prop :=
  Forall (fun c => is_digit c = true) s.

Inductive Numeral : pystr -> Prop :=
| NumInt ds : ds <> [] -> all_digits ds -> Numeral ds
| NumFrac ds fs :
    ds <> [] -> all_digits ds ->
    all_digits fs -> 1 <= length fs <= 2 ->
    Numeral (ds ++ chr "." :: fs).

(** The digits after the period of a captured numeral. *)
Fixpoint fraction (s : pystr) : pystr :=
  match s with
  | [] => []
  | c :: s' => if N.eqb c (chr ".") then s' else fraction s'
  end.

End ReSpec.

(* ===================================================================== *)
(** ** Direct readings of what the patterns and the tree queries find     *)
(* ===================================================================== *)

(** Plain scanners and predicates to state what the parser extracts
    without going through the matcher. *)
Module Scan.

Import Bs4 AmazonPageParser.

(** Does [s] hold a character satisfying [p] directly followed by one
    satisfying [q]? *)
Fixpoint has_pair (p q : char -> bool) (s : pystr) : bool :=
  match s with
  | a :: (b :: _) as t => (p a && q b) || has_pair p q t
  | _ => false
  end.

Definition is_dollar (c : char) : bool := N.eqb c (chr "$").
Definition is_percent (c : char) : bool := N.eqb c (chr "%").

(** The longest run of digits at the start of [s], and what follows. *)
Fixpoint take_digits (s : pystr) : pystr * pystr :=
  match s with
  | c :: s' =>
      if is_digit c
      then let '(ds, t) := take_digits s' in (c :: ds, t)
      else ([], s)
  | [] => ([], [])
  end.

(** A period and one or two digits at the start of [t], two when there
    are two; nothing otherwise. *)
Definition leading_fraction (t : pystr) : pystr * pystr :=
  match t with
  | c :: d1 :: t' =>
      if N.eqb c (chr ".") && is_digit d1 then
        match t' with
        | d2 :: t'' =>
            if is_digit d2 then ([c; d1; d2], t'') else ([c; d1], t')
        | [] => ([c; d1], [])
        end
      else ([], t)
  | _ => ([], t)
  end.

(** The numeral at the start of [s]: all its leading digits, then the
    leading fraction of what follows. *)
Definition leading_numeral (s : pystr) : option (pystr * pystr) :=
  let '(ds, t) := take_digits s in
  match ds with
  | [] => None
  | _ :: _ => let '(f, r) := leading_fraction t in Some (ds ++ f, r)
  end.

(** The numeral after the first dollar sign that a digit follows. *)
Fixpoint first_dollar_amount (text : pystr) : option pystr :=
  match text with
  | [] => None
  | c :: s =>
      if is_dollar c then
        match leading_numeral s with
        | Some (g, _) => Some g
        | None => first_dollar_amount s
        end
      else first_dollar_amount s
  end.

(** Neither the first nor the last character is white space. *)
Definition starts_clean (s : pystr) : Prop :=
  match s with [] => True | c :: _ => is_space c = false end.
Definition trimmed (s : pystr) : Prop :=
  starts_clean s /\ starts_clean (rev s).

(** Further log records of the parser. *)
Definition no_coupon (self : Self) : LogRecord :=
  {| level := INFO; msg := py "No coupon found %s";
     args := [for_name self] |}.
Definition no_container : LogRecord :=
  Terms.warning "Container element not found in the HTML content." [].
Definition no_seller_container : LogRecord :=
  Terms.warning "Seller container not found in the HTML content." [].
Definition neither_node : LogRecord :=
  Terms.warning
    "Neither ships from nor sold by elements found in the HTML content." [].

(** The text of the feature span below a seller node, when it has one. *)
Definition feature_of (node : Tag) : option pystr :=
  match find feature_text node with
  | Some span => Some (get_text_strip span)
  | None => None
  end.

(** What [parse_product_seller] does once both containers are found,
    by which of the two nodes are there and hold their text span. *)
Definition seller_outcome (ships_from_element sold_by_element : option Tag)
  : Outcome (option Seller) * list LogRecord :=
  match ships_from_element, sold_by_element with
  | None, None =>
      (Return None, [Terms.ships_from_missing; Terms.sold_by_missing; neither_node])
  | Some a, Some b =>
      match feature_of a, feature_of b with
      | Some x, Some y =>
          (Return (Some {| ships_from := if_truthy x;
                           sold_by := if_truthy y |}), [])
      | _, _ => (Raise AttributeError, [])
      end
  | Some a, None =>
      match feature_of a with
      | Some _ => (Raise UnboundLocalError, [Terms.sold_by_missing])
      | None => (Raise AttributeError, [])
      end
  | None, Some b =>
      match feature_of b with
      | Some _ => (Raise UnboundLocalError, [Terms.ships_from_missing])
      | None => (Raise AttributeError, [Terms.ships_from_missing])
      end
  end.

End Scan.

(** Further sample pages. *)
Module Samples.

Import Bs4 AmazonPageParser.
Local Open Scope string_scope.

Definition both_sellers : Self :=
  Pages.buy_box
    [Pages.feature "fulfillerInfoFeature_feature_div" "Amazon.com";
     Pages.feature "merchantInfoFeature_feature_div" " Acme Ltd "].

Definition title_page : Self :=
  Pages.page
    [Pages.div "title_feature_div"
       [Pages.text "  Widget ";
        Pages.span ["a-size-large"] [Pages.text " Pro "]]].

(** A coupon container whose own text offers five dollars while its
    label node is empty. *)
Definition empty_label_page : Self :=
  Pages.page
    [Pages.div "promoPriceBlockMessage_feature_div"
       [Pages.text "Save $5 ";
        Pages.span ["a-color-success"; "couponLabelText"] []]].

End Samples.

Section ReFacts.

Import Re ReSpec.

Lemma stop_here_sound lo s u g rest :
  In (u, g, rest) (stop_here lo s) -> u = [] /\ g = [] /\ rest = s /\ lo = 0.
Proof.
  destruct lo; simpl; [intros [E | []] | intros []].
  inversion E; auto.
Qed.

Lemma stop_here_ok cs lo hi s u g rest :
  In (u, g, rest) (stop_here lo s) ->
  s = u ++ rest /\ g = [] /\
  Forall (fun c => in_set cs c = true) u /\ lo <= length u /\
  within hi (length u).
Proof.
  intros H. apply stop_here_sound in H as (-> & -> & -> & ->).
  repeat split; auto. destruct hi; simpl; lia.
Qed.

Lemma rep_sound cs s : forall lo hi u g rest,
  In (u, g, rest) (rep cs lo hi s) ->
  s = u ++ rest /\ g = [] /\
  Forall (fun c => in_set cs c = true) u /\ lo <= length u /\
  within hi (length u).
Proof.
  induction s as [|c s IH]; intros lo hi u g rest H.
  - simpl in H. now apply stop_here_ok.
  - simpl in H.
    destruct (dec_hi hi) as [hi'|] eqn:Ehi; [|now apply stop_here_ok].
    destruct (in_set cs c) eqn:Ec; [|now apply stop_here_ok].
    apply in_app_or in H as [H | H]; [|now apply stop_here_ok].
    apply in_map_iff in H as ([[u' g'] r'] & E & H). inversion E; subst.
    apply IH in H as (-> & -> & F & L & W).
    split; [reflexivity|]. split; [reflexivity|].
    split; [now constructor|]. split; [simpl; lia|].
    destruct hi as [[|h]|]; simpl in *; try discriminate; auto.
    inversion Ehi; subst. simpl in W. lia.
Qed.

Lemma attempts_sound r : forall s u g rest,
  In (u, g, rest) (attempts r s) -> s = u ++ rest /\ Matches r u g.
Proof.
  induction r as [c | cs lo hi | r1 IH1 r2 IH2 | r IH | r IH];
    intros s u g rest H; simpl in H.
  - destruct s as [|x s]; [contradiction|].
    destruct (N.eqb_spec x c); [|contradiction].
    destruct H as [E | []]. inversion E; subst. split; [reflexivity|constructor].
  - apply rep_sound in H as (-> & -> & F & L & W).
    split; [reflexivity|now constructor].
  - apply in_flat_map in H as ([[u1 g1] s1] & H1 & H).
    apply in_map_iff in H as ([[u2 g2] s2] & E & H2). inversion E; subst.
    apply IH1 in H1 as (-> & M1). apply IH2 in H2 as (-> & M2).
    split; [now rewrite app_assoc|now constructor].
  - apply in_app_or in H as [H | [E | []]].
    + apply IH in H as (-> & M). split; [reflexivity|now constructor].
    + inversion E; subst. split; [reflexivity|apply MOptNone].
  - apply in_map_iff in H as ([[u' g'] s'] & E & H). inversion E; subst.
    apply IH in H as (-> & M). split; [reflexivity|now constructor].
Qed.

(** A successful search found its match somewhere in the text. *)
Lemma search_sound r : forall s m,
  search r s = Some m ->
  exists pre rest,
    s = pre ++ group0 m ++ rest /\ Matches r (group0 m) (groups m).
Proof.
  induction s as [|c s IH]; intros m H; simpl in H.
  - destruct (attempts r []) as [|[[u g] rest] l] eqn:E; [discriminate|].
    inversion H; subst; simpl.
    destruct (@attempts_sound r [] u g rest) as (Es & M);
      [rewrite E; now left|].
    exists [], rest. split; [exact Es|exact M].
  - destruct (attempts r (c :: s)) as [|[[u g] rest] l] eqn:E.
    + apply IH in H as (pre & rest & -> & M).
      exists (c :: pre), rest. split; [reflexivity|exact M].
    + inversion H; subst; simpl.
      destruct (@attempts_sound r (c :: s) u g rest) as (Es & M);
        [rewrite E; now left|].
      exists [], rest. split; [exact Es|exact M].
Qed.

End ReFacts.

(* ===================================================================== *)
(** ** Facts about [float()]                                              *)
(* ===================================================================== *)

Section FloatFacts.

Import PyFloat.

Lemma positive_sign_leb x : positive_sign x -> leb zero x = true.
Proof.
  destruct x as [s | s | | s m e]; simpl; intros H; subst;
    try reflexivity; contradiction.
Qed.

Lemma positive_sign_not_nan x : positive_sign x -> is_nan x = false.
Proof. destruct x; simpl; intros H; try reflexivity; contradiction. Qed.

Lemma iter_pos_preserves {A} (P : A -> Prop) (f : A -> A) :
  (forall x, P x -> P (f x)) ->
  forall n x, P x -> P (iter_pos f n x).
Proof.
  intros Hf. induction n as [n IH | n IH |]; intros x Hx; simpl; auto.
Qed.

Lemma shr_1_nonneg mrs : (0 <= shr_m mrs)%Z -> (0 <= shr_m (shr_1 mrs))%Z.
Proof.
  destruct mrs as [m r s]. simpl.
  destruct m as [|[p|p|]|[p|p|]]; simpl; lia.
Qed.

Lemma shr_nonneg mrs e n :
  (0 <= shr_m mrs)%Z -> (0 <= shr_m (fst (shr mrs e n)))%Z.
Proof.
  intros H. destruct n; simpl; auto.
  apply iter_pos_preserves with (P := fun x => (0 <= shr_m x)%Z); auto.
  apply shr_1_nonneg.
Qed.

Lemma shr_record_of_loc_m m l : shr_m (shr_record_of_loc m l) = m.
Proof. destruct l as [|[]]; reflexivity. Qed.

Lemma shr_fexp_nonneg m e l :
  (0 <= m)%Z -> (0 <= shr_m (fst (shr_fexp prec emax m e l)))%Z.
Proof.
  intros H. unfold shr_fexp. apply shr_nonneg.
  now rewrite shr_record_of_loc_m.
Qed.

Lemma round_nearest_even_nonneg m l :
  (0 <= m)%Z -> (0 <= round_nearest_even m l)%Z.
Proof.
  intros H. destruct l as [|[]]; simpl; try lia.
  destruct (Z.even m); lia.
Qed.

Lemma binary_round_aux_sign m e l :
  (0 <= m)%Z -> positive_sign (binary_round_aux prec emax false m e l).
Proof.
  intros H. unfold binary_round_aux.
  pose proof (shr_fexp_nonneg e l H) as H1.
  destruct (shr_fexp prec emax m e l) as [mrs' e'] eqn:E1. simpl in H1.
  pose proof (round_nearest_even_nonneg (loc_of_shr_record mrs') H1) as H2.
  pose proof (shr_fexp_nonneg e' loc_Exact H2) as H3.
  destruct (shr_fexp prec emax (round_nearest_even _ _) e' loc_Exact)
    as [mrs'' e''] eqn:E2.
  simpl in H3. destruct (shr_m mrs'') as [|p|p]; simpl; try reflexivity.
  - destruct (_ <=? _)%Z; reflexivity.
  - lia.
Qed.

Lemma of_decimal_sign m k : positive_sign (of_decimal m k).
Proof.
  destruct m as [|p]; simpl; [reflexivity|].
  unfold SFdiv_core_binary.
  set (e' := Z.min _ _). set (m' := match (0 - 0 - e')%Z with
                                     | Z0 => _ | Zpos _ => _ | Zneg _ => _ end).
  assert (Hm : (0 <= m')%Z).
  { subst m'. destruct (0 - 0 - e')%Z; try lia.
    apply Z.shiftl_nonneg. lia. }
  pose proof (Z.div_eucl_eq m' (Zpos (pow10 k)) ltac:(lia)) as Hq.
  pose proof (Z.mod_pos_bound m' (Zpos (pow10 k)) ltac:(lia)) as Hr.
  unfold Z.modulo in Hr.
  destruct (Z.div_eucl m' (Zpos (pow10 k))) as [q r].
  apply binary_round_aux_sign. nia.
Qed.

Lemma read_digits_app ds : forall rest acc n,
  ReSpec.all_digits ds ->
  read_digits (ds ++ rest) acc n
  = read_digits rest (digits_value ds acc) (n + length ds).
Proof.
  induction ds as [|c ds IH]; intros rest acc n H; simpl.
  - now rewrite Nat.add_0_r.
  - inversion H as [|? ? Hc Hds]; subst. unfold is_digit in Hc.
    destruct (digit_value c) as [d|]; [|discriminate].
    rewrite IH by assumption. f_equal. lia.
Qed.

Lemma period_not_digit : is_digit (chr ".") = false.
Proof. reflexivity. Qed.

Lemma read_digits_period rest acc n :
  read_digits (chr "." :: rest) acc n = (acc, n, chr "." :: rest).
Proof. reflexivity. Qed.

Lemma read_digits_all ds acc n :
  ReSpec.all_digits ds ->
  read_digits ds acc n = (digits_value ds acc, n + length ds, []).
Proof.
  intros H. pose proof (read_digits_app [] acc n H) as E.
  now rewrite app_nil_r in E.
Qed.

(** [float()] accepts every numeral the coupon patterns capture. *)
Lemma parse_decimal_numeral u :
  ReSpec.Numeral u ->
  exists m k, parse_decimal u = Some (m, k) /\ k <= 2.
Proof.
  intros [ds Hne Hds | ds fs Hne Hds Hfs Hlen]; unfold parse_decimal.
  - rewrite read_digits_all by assumption.
    destruct ds; [contradiction|]. simpl.
    eexists _, 0. split; [reflexivity|lia].
  - rewrite read_digits_app by assumption.
    rewrite read_digits_period, N.eqb_refl.
    rewrite read_digits_all by assumption.
    destruct ds; [contradiction|]. simpl.
    eexists _, (length fs). split; [reflexivity|lia].
Qed.

Lemma float_of_str_numeral u :
  ReSpec.Numeral u ->
  exists x, float_of_str u = Some x /\ positive_sign x.
Proof.
  intros H. destruct (parse_decimal_numeral H) as (m & k & E & _).
  unfold float_of_str. rewrite E. eexists. split; [reflexivity|].
  apply of_decimal_sign.
Qed.

End FloatFacts.

(** *** Magnitude: numerals below [10^308] convert to finite floats *)

Section FloatMagnitude.

Import PyFloat.
Local Open Scope Z_scope.

Lemma digits2_pos_size p : digits2_pos p = Pos.size p.
Proof. induction p; simpl; congruence. Qed.

Lemma Zdigits2_log2 p : Zdigits2 (Zpos p) = Z.log2 (Zpos p) + 1.
Proof.
  simpl. rewrite digits2_pos_size.
  destruct p; simpl; try reflexivity; rewrite Pos2Z.inj_succ; lia.
Qed.

Lemma Zdigits2_le x n : 0 <= x -> 0 <= n -> x < 2 ^ n -> Zdigits2 x <= n.
Proof.
  intros Hx Hn H. destruct x as [|p|p]; [simpl; lia| |lia].
  rewrite Zdigits2_log2.
  assert (Z.log2 (Zpos p) < n); [|lia].
  apply Z.log2_lt_pow2; lia.
Qed.

Lemma shr_1_div mrs : 0 <= shr_m mrs -> shr_m (shr_1 mrs) = shr_m mrs / 2.
Proof.
  destruct mrs as [m r s]. simpl. intros H.
  destruct m as [|[p|p|]|p]; simpl; try reflexivity; try lia.
  - apply Z.div_unique with (r := 1); lia.
  - apply Z.div_unique with (r := 0); lia.
Qed.

Lemma iter_shr_1_div n : forall mrs,
  0 <= shr_m mrs ->
  shr_m (iter_pos shr_1 n mrs) = shr_m mrs / 2 ^ Zpos n.
Proof.
  assert (nn : forall k mrs, 0 <= shr_m mrs -> 0 <= shr_m (iter_pos shr_1 k mrs)).
  { intros k mrs H.
    apply iter_pos_preserves with (P := fun x => 0 <= shr_m x); auto.
    apply shr_1_nonneg. }
  induction n as [n IH | n IH |]; intros mrs H; simpl iter_pos.
  - rewrite IH, IH, shr_1_div; auto using shr_1_nonneg.
    rewrite !Z.div_div by (try apply Z.pow_pos_nonneg; lia).
    f_equal. replace (Zpos n~1) with (1 + (Zpos n + Zpos n)) by lia.
    rewrite !Z.pow_add_r by lia. reflexivity.
  - rewrite IH, IH; auto.
    rewrite !Z.div_div by (try apply Z.pow_pos_nonneg; lia).
    f_equal. replace (Zpos n~0) with (Zpos n + Zpos n) by lia.
    now rewrite Z.pow_add_r by lia.
  - now rewrite shr_1_div.
Qed.

Lemma shr_spec mrs e n :
  0 <= shr_m mrs ->
  shr_m (fst (shr mrs e n)) = shr_m mrs / 2 ^ Z.max n 0 /\
  snd (shr mrs e n) = e + Z.max n 0.
Proof.
  intros H. destruct n as [|p|p]; simpl.
  - now rewrite Z.div_1_r, Z.add_0_r.
  - rewrite iter_shr_1_div by assumption. split; reflexivity.
  - now rewrite Z.div_1_r, Z.add_0_r.
Qed.

Lemma big_slack : 0 < big /\ big + 2 ^ 971 <= 2 ^ 1024.
Proof. split; vm_compute; congruence. Qed.

Lemma fexp_le x : x <= 1024 -> fexp prec emax x <= 971.
Proof. unfold fexp, emin, prec, emax. lia. Qed.

Lemma binary_round_aux_finite q e l :
  0 <= q -> e <= 0 -> q < big * 2 ^ (- e) ->
  is_finite (binary_round_aux prec emax false q e l) = true.
Proof.
  intros Hq He Hb. destruct big_slack as [Hbig Hslack].
  set (s := - e) in *. assert (Hs : 0 <= s) by lia.
  assert (Hps : 0 < 2 ^ s) by (apply Z.pow_pos_nonneg; lia).
  unfold binary_round_aux, shr_fexp.
  set (n1 := fexp prec emax (Zdigits2 q + e) - e).
  assert (HA : Zdigits2 q + e <= 1024).
  { assert (Zdigits2 q <= 1024 + s); [|lia].
    apply Zdigits2_le; try lia. rewrite Z.pow_add_r by lia. nia. }
  pose proof (fexp_le HA) as HfA.
  destruct (@shr_spec (shr_record_of_loc q l) e n1) as [Em1 Ee1].
  { now rewrite shr_record_of_loc_m. }
  rewrite shr_record_of_loc_m in Em1.
  destruct (shr (shr_record_of_loc q l) e n1) as [mrs' e1]. simpl in Em1, Ee1.
  set (m1 := shr_m mrs') in *.
  set (m2 := round_nearest_even m1 (loc_of_shr_record mrs')).
  set (n1' := Z.max n1 0) in *.
  assert (Hn1 : 0 <= n1' <= 971 + s) by (subst n1' n1; lia).
  assert (Hp1 : 0 < 2 ^ n1') by (apply Z.pow_pos_nonneg; lia).
  assert (Hm1 : 0 <= m1 /\ m1 * 2 ^ n1' <= q).
  { rewrite Em1. split; [apply Z.div_pos; lia|].
    rewrite Z.mul_comm. apply Z.mul_div_le. lia. }
  assert (Hm2 : 0 <= m2 <= m1 + 1).
  { subst m2. destruct (loc_of_shr_record mrs') as [|[]]; simpl; try lia.
    destruct (Z.even m1); lia. }
  assert (HB : Zdigits2 m2 + e1 <= 1024).
  { assert (Zdigits2 m2 <= 1024 + s - n1'); [|lia].
    apply Zdigits2_le; try lia.
    assert (Hpow : 2 ^ (1024 + s - n1') * 2 ^ n1' = 2 ^ 1024 * 2 ^ s).
    { rewrite <- !Z.pow_add_r by lia. f_equal. lia. }
    assert (Hle : 2 ^ n1' <= 2 ^ 971 * 2 ^ s).
    { rewrite <- Z.pow_add_r by lia. apply Z.pow_le_mono_r; lia. }
    apply Z.mul_lt_mono_pos_r with (p := 2 ^ n1'); [lia|].
    rewrite Hpow. nia. }
  pose proof (fexp_le HB) as HfB.
  set (n2 := fexp prec emax (Zdigits2 m2 + e1) - e1) in *.
  destruct (@shr_spec (shr_record_of_loc m2 loc_Exact) e1 n2) as [Em3 Ee3].
  { simpl. lia. }
  destruct (shr (shr_record_of_loc m2 loc_Exact) e1 n2) as [mrs'' e3].
  simpl in Em3, Ee3.
  assert (He3 : e3 <= 971) by (subst n2; lia).
  assert (Hm3 : 0 <= shr_m mrs'').
  { rewrite Em3. apply Z.div_pos; [lia|]. apply Z.pow_pos_nonneg; lia. }
  destruct (shr_m mrs'') as [|p|p]; [reflexivity| |lia].
  replace (e3 <=? emax - prec) with true; [reflexivity|].
  symmetry. apply Z.leb_le. unfold emax, prec. lia.
Qed.

Lemma of_decimal_finite m k :
  Z.of_N m < big * Zpos (pow10 k) -> is_finite (of_decimal m k) = true.
Proof.
  intros H. destruct m as [|p]; [reflexivity|]. simpl Z.of_N in H.
  unfold of_decimal, SFdiv, SFdiv_core_binary.
  set (e' := Z.min _ _).
  assert (He : e' <= 0) by (subst e'; lia).
  set (m' := match 0 - 0 - e' with Z0 => _ | Zpos _ => _ | Zneg _ => _ end).
  assert (Hm : m' = Zpos p * 2 ^ (- e')).
  { subst m'. replace (0 - 0 - e') with (- e') by lia.
    destruct (- e') as [|s|s] eqn:Es; try lia.
    now rewrite Z.shiftl_mul_pow2 by lia. }
  assert (Hps : 0 < 2 ^ (- e')) by (apply Z.pow_pos_nonneg; lia).
  pose proof (Z.div_eucl_eq m' (Zpos (pow10 k)) ltac:(lia)) as Hq.
  pose proof (Z.mod_pos_bound m' (Zpos (pow10 k)) ltac:(lia)) as Hr.
  unfold Z.modulo in Hr.
  destruct (Z.div_eucl m' (Zpos (pow10 k))) as [q r].
  destruct big_slack as [Hbig _].
  apply binary_round_aux_finite; [nia|exact He|].
  apply Z.mul_lt_mono_pos_r with (p := Zpos (pow10 k)); [lia|]. nia.
Qed.

End FloatMagnitude.

(* ===================================================================== *)
(** ** Facts about the coupon patterns                                    *)
(* ===================================================================== *)

Section CouponPatterns.

Import Re ReSpec AmazonPageParser Terms.

Lemma number_re_numeral u g :
  Matches number_re u g -> g = [] /\ Numeral u.
Proof.
  unfold number_re, Plus. intros H.
  inversion H as [| | r1 r2 u1 g1 u2 g2 H1 H2 | | |]; subst; clear H.
  inversion H1 as [|cs lo hi v Hv Hlo Hhi | | | |]; subst; clear H1.
  assert (Hne : u1 <> []) by (destruct u1; [simpl in Hlo; lia|discriminate]).
  inversion H2 as [| | |r v g HM| |]; subst; clear H2.
  - inversion HM as [| | r1 r2 v1 h1 v2 h2 K1 K2 | | |]; subst; clear HM.
    inversion K1; subst; clear K1.
    inversion K2 as [|cs lo hi v Fv Flo Fhi | | | |]; subst; clear K2.
    split; [reflexivity|]. simpl. apply NumFrac; auto.
  - split; [reflexivity|]. rewrite app_nil_r. now apply NumInt.
Qed.

(** A fixed-amount match is a dollar sign followed by a numeral, which
    is what group 1 holds. *)
Lemma fixed_amount_match_shape text m :
  search fixed_amount_re text = Some m ->
  Numeral (group1 m) /\
  exists pre rest, text = pre ++ chr "$" :: group1 m ++ rest.
Proof.
  intros H. apply search_sound in H as (pre & rest & E & M).
  unfold fixed_amount_re in M. destruct m as [u0 gs]. simpl in *.
  inversion M as [| | r1 r2 u1 g1 u2 g2 H1 H2 | | |]; subst; clear M.
  inversion H1; subst; clear H1.
  inversion H2 as [| | | | |r v g HM]; subst; clear H2.
  apply number_re_numeral in HM as (-> & HN).
  unfold group1; simpl. split; [exact HN|].
  exists pre, rest. reflexivity.
Qed.

(** A percentage match is a numeral followed by a percent sign. *)
Lemma percent_match_shape text m :
  search percent_re text = Some m ->
  Numeral (group1 m) /\
  exists pre rest, text = pre ++ group1 m ++ chr "%" :: rest.
Proof.
  intros H. apply search_sound in H as (pre & rest & E & M).
  unfold percent_re in M. destruct m as [u0 gs]. simpl in *.
  inversion M as [| | r1 r2 u1 g1 u2 g2 H1 H2 | | |]; subst; clear M.
  inversion H2; subst; clear H2.
  inversion H1 as [| | | | |r v g HM]; subst; clear H1.
  apply number_re_numeral in HM as (-> & HN).
  unfold group1; simpl. split; [exact HN|].
  exists pre, rest. now rewrite <- app_assoc.
Qed.

Lemma check_coupon_type_cases text :
  Classified text (run (check_coupon_type text)).
Proof.
  unfold check_coupon_type, run.
  destruct (search fixed_amount_re text) as [m|] eqn:Ef.
  - destruct (fixed_amount_match_shape _ Ef) as (HN & _).
    destruct (float_of_str_numeral HN) as (x & Ex & _).
    unfold bind, float. rewrite Ex. simpl.
    now apply IsFixed with (m := m).
  - destruct (search percent_re text) as [m|] eqn:Ep.
    + destruct (percent_match_shape _ Ep) as (HN & _).
      destruct (float_of_str_numeral HN) as (x & Ex & _).
      unfold bind, float. rewrite Ex. simpl.
      now apply IsPercentage with (m := m).
    + now apply IsUnclassified.
Qed.

End CouponPatterns.

(* ===================================================================== *)
(** ** Coupon classification                                              *)
(* ===================================================================== *)

Section CouponProperties.

Import Bs4 Re ReSpec AmazonPageParser Terms.

Lemma digit_not_period c : is_digit c = true -> N.eqb c (chr ".") = false.
Proof.
  intros H. destruct (N.eqb_spec c (chr ".")) as [->|]; [|reflexivity].
  discriminate H.
Qed.

Lemma fraction_digits ds rest :
  all_digits ds -> fraction (ds ++ rest) = fraction rest.
Proof.
  induction 1 as [|c ds Hc _ IH]; cbn [fraction app]; [reflexivity|].
  now rewrite (digit_not_period _ Hc).
Qed.

Lemma numeral_fraction g : Numeral g -> length (fraction g) <= 2.
Proof.
  intros [ds _ Hds | ds fs _ Hds _ Hlen].
  - rewrite <- (app_nil_r ds), fraction_digits by assumption. simpl. lia.
  - rewrite fraction_digits by assumption. simpl. lia.
Qed.

(** C1 (as the code behaves): when the coupon container is there and its
    message matches neither the fixed-amount nor the percentage pattern,
    [check_coupon_type] returns [None] without raising, and
    [parse_product_coupon] then fails to unpack it: the call raises
    [TypeError] and no diagnostic is ever recorded. *)
Theorem unclassified_coupon_raises self coupon_element :
  find (by_id "promoPriceBlockMessage_feature_div") (soup self)
  = Some coupon_element ->
  search fixed_amount_re (coupon_message_of coupon_element) = None ->
  search percent_re (coupon_message_of coupon_element) = None ->
  run (check_coupon_type (coupon_message_of coupon_element))
  = (Return None, []) /\
  run (parse_product_coupon self) = (Raise TypeError, []).
Proof.
  intros Hc Hf Hp.
  assert (E : run (check_coupon_type (coupon_message_of coupon_element))
              = (Return None, [])).
  { unfold check_coupon_type. now rewrite Hf, Hp. }
  split; [exact E|].
  unfold parse_product_coupon. rewrite Hc.
  fold (coupon_message_of coupon_element).
  unfold run, bind in *. now rewrite E.
Qed.

Lemma unclassified_coupon_raises_witness :
  let self := Pages.coupon_page "Limited time offer" in
  exists coupon_element,
    find (by_id "promoPriceBlockMessage_feature_div") (soup self)
    = Some coupon_element /\
    coupon_message_of coupon_element = py "Limited time offer" /\
    search fixed_amount_re (coupon_message_of coupon_element) = None /\
    search percent_re (coupon_message_of coupon_element) = None /\
    run (check_coupon_type (coupon_message_of coupon_element))
    = (Return None, []) /\
    run (parse_product_coupon self) = (Raise TypeError, []).
Proof.
  eexists. split; [reflexivity|]. split; [reflexivity|].
  split; [reflexivity|]. split; [reflexivity|].
  apply (@unclassified_coupon_raises
           (Pages.coupon_page "Limited time offer") _);
    reflexivity.
Defined.

(** C6: the fixed-amount pattern is tried first, so a message that
    matches both patterns is classified as fixed; the two sample messages
    of the specification classify as fixed 10.0 and percentage 15.0. *)
Theorem fixed_takes_precedence :
  (forall text,
      search fixed_amount_re text <> None ->
      search percent_re text <> None ->
      exists x,
        run (check_coupon_type text) = (Return (Some (py "fixed", x)), []))
  /\ run (check_coupon_type (py "Save $10 on this item"))
     = (Return (Some (py "fixed", f10)), [])
  /\ run (check_coupon_type (py "15% off select items"))
     = (Return (Some (py "percentage", f15)), [])
  /\ is_integer f10 10 /\ is_integer f15 15.
Proof.
  split; [|repeat split].
  intros text Hf _.
  pose proof (check_coupon_type_cases text) as C.
  inversion C as [m x Ef Ex E | m x Ef | Ef]; try congruence.
  now exists x.
Qed.

Lemma fixed_takes_precedence_witness :
  let text := py "Take 5% or $3.50 off" in
  search fixed_amount_re text <> None /\
  search percent_re text <> None /\
  exists x, run (check_coupon_type text) = (Return (Some (py "fixed", x)), []).
Proof.
  split; [vm_compute; discriminate|]. split; [vm_compute; discriminate|].
  apply (proj1 fixed_takes_precedence (py "Take 5% or $3.50 off"));
    vm_compute; discriminate.
Defined.

(** C7 (as the code behaves): a classified coupon carries exactly one of
    the two tags, fixed or percentage, and a number that is not negative
    and not a NaN; nothing bounds it away from zero or, for a percentage,
    by 100. *)
Theorem coupon_number_nonnegative text tag x l :
  run (check_coupon_type text) = (Return (Some (tag, x)), l) ->
  (tag = py "fixed" /\ search fixed_amount_re text <> None
   \/ tag = py "percentage" /\ search fixed_amount_re text = None) /\
  PyFloat.leb PyFloat.zero x = true /\ PyFloat.is_nan x = false.
Proof.
  intros H. pose proof (check_coupon_type_cases text) as C.
  rewrite H in C.
  inversion C as [m y Ef Ey | m y Ef Ep Ey | Ef Ep]; subst; clear C.
  - destruct (fixed_amount_match_shape _ Ef) as (HN & _).
    destruct (float_of_str_numeral HN) as (z & Ez & Hz).
    assert (z = x) by congruence. subst z.
    split; [left; split; [reflexivity|congruence]|].
    split; [now apply positive_sign_leb|now apply positive_sign_not_nan].
  - destruct (percent_match_shape _ Ep) as (HN & _).
    destruct (float_of_str_numeral HN) as (z & Ez & Hz).
    assert (z = x) by congruence. subst z.
    split; [right; split; [reflexivity|assumption]|].
    split; [now apply positive_sign_leb|now apply positive_sign_not_nan].
Qed.

Lemma coupon_number_nonnegative_witness :
  run (check_coupon_type (py "Save $10 on this item"))
  = (Return (Some (py "fixed", f10)), []) /\
  (py "fixed" = py "fixed"
   /\ search fixed_amount_re (py "Save $10 on this item") <> None
   \/ py "fixed" = py "percentage"
      /\ search fixed_amount_re (py "Save $10 on this item") = None) /\
  PyFloat.leb PyFloat.zero f10 = true /\ PyFloat.is_nan f10 = false.
Proof.
  split; [reflexivity|].
  apply (@coupon_number_nonnegative (py "Save $10 on this item")
           (py "fixed") f10 []).
  reflexivity.
Defined.

(** C7 as stated fails: a message offering "$0" classifies as a fixed
    coupon of amount 0.0, which is not greater than zero, and "150%"
    classifies as a percentage of 150.0, which exceeds 100. *)
Lemma coupon_bounds_counterexample :
  run (check_coupon_type (py "$0 off your order"))
  = (Return (Some (py "fixed", PyFloat.zero)), []) /\
  PyFloat.ltb PyFloat.zero PyFloat.zero = false /\
  run (check_coupon_type (py "150% more points"))
  = (Return (Some (py "percentage", PyFloat.of_decimal 150 0)), []) /\
  PyFloat.leb (PyFloat.of_decimal 150 0) (PyFloat.of_decimal 100 0) = false.
Proof. repeat split. Qed.

(** C10: a message is classified as fixed only when it holds a dollar
    sign directly followed by a numeral, and the numeral captured for
    either kind is a run of digits with at most two digits after an
    optional period; it is the text [float()] converts. *)
Theorem fixed_needs_dollar_sign text tag x l :
  run (check_coupon_type text) = (Return (Some (tag, x)), l) ->
  exists g pre rest,
    Numeral g /\ length (fraction g) <= 2 /\
    PyFloat.float_of_str g = Some x /\
    (tag = py "fixed" /\ text = pre ++ chr "$" :: g ++ rest
     \/ tag = py "percentage" /\ text = pre ++ g ++ chr "%" :: rest
        /\ search fixed_amount_re text = None).
Proof.
  intros H. pose proof (check_coupon_type_cases text) as C.
  rewrite H in C.
  inversion C as [m y Ef Ey | m y Ef Ep Ey | Ef Ep]; subst; clear C.
  - destruct (fixed_amount_match_shape _ Ef) as (HN & pre & rest & E).
    exists (group1 m), pre, rest.
    split; [exact HN|]. split; [now apply numeral_fraction|].
    split; [exact Ey|]. left. split; [reflexivity|exact E].
  - destruct (percent_match_shape _ Ep) as (HN & pre & rest & E).
    exists (group1 m), pre, rest.
    split; [exact HN|]. split; [now apply numeral_fraction|].
    split; [exact Ey|]. right. split; [reflexivity|]. split; assumption.
Qed.

Lemma fixed_needs_dollar_sign_witness :
  let text := py "Extra $3.999 off" in
  run (check_coupon_type text)
  = (Return (Some (py "fixed", PyFloat.of_decimal 399 2)), []) /\
  exists g pre rest,
    Numeral g /\ length (fraction g) <= 2 /\
    PyFloat.float_of_str g = Some (PyFloat.of_decimal 399 2) /\
    (py "fixed" = py "fixed" /\ text = pre ++ chr "$" :: g ++ rest
     \/ py "fixed" = py "percentage" /\ text = pre ++ g ++ chr "%" :: rest
        /\ search fixed_amount_re text = None).
Proof.
  split; [reflexivity|].
  apply (@fixed_needs_dollar_sign (py "Extra $3.999 off") (py "fixed")
           (PyFloat.of_decimal 399 2) []).
  reflexivity.
Defined.

(** A message without a dollar sign is never classified as fixed,
    whatever other currency symbol it shows. *)
Lemma no_dollar_not_fixed text x l :
  ~ In (chr "$") text ->
  run (check_coupon_type text) <> (Return (Some (py "fixed", x)), l).
Proof.
  intros Hno H. pose proof (check_coupon_type_cases text) as C.
  rewrite H in C.
  inversion C as [m y Ef Ey | m y Ef Ep Ey | Ef Ep]; subst; clear C.
  destruct (fixed_amount_match_shape _ Ef) as (_ & pre & rest & E).
  apply Hno. rewrite E. apply in_or_app. right. now left.
Qed.

(** The euro and pound samples: code points 8364 and 163. *)
Example euro_and_pound_unclassified :
  run (check_coupon_type (8364%N :: py "10 off")) = (Return None, []) /\
  run (check_coupon_type (163%N :: py "10 off")) = (Return None, []).
Proof. split; reflexivity. Qed.

End CouponProperties.

(* ===================================================================== *)
(** ** Price extraction                                                   *)
(* ===================================================================== *)

Section PriceProperties.

Import Bs4 Re ReSpec AmazonPageParser Terms PyFloat.

Lemma rep_zero_nonempty cs hi s : rep cs 0 hi s <> [].
Proof.
  destruct s as [|c s]; simpl; [discriminate|].
  destruct (dec_hi hi); [|discriminate].
  destruct (in_set cs c); [|discriminate].
  intros E. apply app_eq_nil in E as [_ E]. discriminate.
Qed.

(** No attempt starts on a character outside the set. *)
Lemma plus_attempts_outside cs c s :
  in_set cs c = false -> attempts (Plus cs) (c :: s) = [].
Proof. intros H. simpl. now rewrite H. Qed.

Lemma plus_attempts_inside cs c s :
  in_set cs c = true -> attempts (Plus cs) (c :: s) <> [].
Proof.
  intros H. simpl. rewrite H. rewrite app_nil_r.
  pose proof (@rep_zero_nonempty cs None s) as K.
  destruct (rep cs 0 None s); [contradiction|discriminate].
Qed.

(** The greedy repetition takes the whole run first. *)
Lemma rep_greedy cs post :
  (match post with [] => True | c :: _ => in_set cs c = false end) ->
  forall run lo,
    Forall (fun c => in_set cs c = true) run -> lo <= length run ->
    exists l, rep cs lo None (run ++ post) = (run, [], post) :: l.
Proof.
  intros Hpost run. induction run as [|c run IH]; intros lo Hrun Hlo.
  - simpl in Hlo. assert (lo = 0) by lia. subst lo. simpl.
    destruct post as [|c post]; simpl; [now eexists|].
    rewrite Hpost. now eexists.
  - inversion Hrun as [|? ? Hc Hrun']; subst. simpl. rewrite Hc.
    destruct (IH (pred lo) Hrun') as (l & E); [simpl in Hlo; lia|].
    rewrite E. simpl. now eexists.
Qed.

Lemma search_skips r pre s :
  Forall (fun c => forall t, attempts r (c :: t) = []) pre ->
  s <> [] -> search r (pre ++ s) = search r s.
Proof.
  intros Hpre Hs. induction Hpre as [|c pre Hc _ IH]; [reflexivity|].
  simpl app. cbn [search]. now rewrite Hc.
Qed.

(** The price pattern finds the first run of digits, commas and
    periods. *)
Lemma search_price_run pre num post :
  plain pre -> num <> [] -> Forall (fun c => price_char c = true) num ->
  (match post with [] => True | c :: _ => price_char c = false end) ->
  search price_re (pre ++ num ++ post)
  = Some {| group0 := num; groups := [] |}.
Proof.
  intros Hpre Hne Hnum Hpost.
  rewrite search_skips.
  - destruct (@rep_greedy _ post Hpost num 1 Hnum) as (l & E).
    { destruct num; [contradiction|simpl; lia]. }
    destruct num as [|c num]; [contradiction|].
    cbn [search app]. unfold price_re, Plus. cbn [attempts].
    change ((c :: num) ++ post) with (c :: num ++ post) in E.
    now rewrite E.
  - eapply Forall_impl; [|exact Hpre].
    intros c Hc t. now apply plus_attempts_outside.
  - destruct num; [contradiction|discriminate].
Qed.

Lemma search_price_none s : plain s -> search price_re s = None.
Proof.
  induction 1 as [|c s Hc _ IH]; [reflexivity|].
  cbn [search]. unfold price_re at 1.
  now rewrite plus_attempts_outside.
Qed.

Lemma search_price_some s :
  ~ plain s -> exists m, search price_re s = Some m.
Proof.
  induction s as [|c s IH]; intros H.
  - exfalso. apply H. constructor.
  - cbn [search]. destruct (price_char c) eqn:Ec.
    + pose proof (@plus_attempts_inside _ c s Ec) as K.
      fold price_re in K.
      destruct (attempts price_re (c :: s)) as [|[[u g] r] l];
        [contradiction|]. now eexists.
    + unfold price_re at 1. rewrite plus_attempts_outside by exact Ec.
      apply IH. intros Hs. apply H. now constructor.
Qed.

(** What a price match holds. *)
Lemma search_price_shape s m :
  search price_re s = Some m ->
  group0 m <> [] /\ Forall (fun c => price_char c = true) (group0 m) /\
  exists pre post, s = pre ++ group0 m ++ post.
Proof.
  intros H. apply search_sound in H as (pre & post & E & M).
  unfold price_re, Plus in M.
  inversion M as [|cs lo hi u Hu Hlo Hhi | | | |]; subst.
  repeat split.
  - destruct (group0 m); [simpl in Hlo; lia|discriminate].
  - exact Hu.
  - now exists pre, post.
Qed.

(** The three ways [parse_product_price] ends once the price text node
    is reached. *)
Lemma price_run self price_element price_text_tag :
  find (by_name_id "div" "corePrice_feature_div") (soup self)
  = Some price_element ->
  find (by_name_class "span" "a-offscreen") price_element
  = Some price_text_tag ->
  run (parse_product_price self)
  = match search price_re (get_text_strip price_text_tag) with
    | Some m =>
        match float_of_str (remove_char (chr ",") (group0 m)) with
        | Some x => (Return (Some x), [])
        | None =>
            (Return None,
             [error "Failed to convert price to float %s" [for_name self]])
        end
    | None =>
        (Return None, [warning "Product price not found %s" [for_name self]])
    end.
Proof.
  intros H1 H2. unfold parse_product_price. rewrite H1, H2.
  destruct (search price_re (get_text_strip price_text_tag)) as [m|];
    [|reflexivity].
  unfold run, try_except, bind, PyOps.float.
  destruct (float_of_str (remove_char (chr ",") (group0 m))); reflexivity.
Qed.

Lemma price_char_cases c :
  price_char c = is_digit c || (N.eqb c (chr ",") || N.eqb c (chr ".")).
Proof. reflexivity. Qed.

Lemma plain_existsb s : plain s <-> existsb price_char s = false.
Proof.
  unfold plain. induction s as [|c s IH]; simpl.
  - split; [reflexivity|constructor].
  - rewrite orb_false_iff, <- IH. split.
    + intros H. inversion H; subst. now split.
    + intros [H1 H2]. now constructor.
Qed.

(** [float()] rejects a text made of periods only, the empty one
    included. *)
Lemma float_of_str_periods s :
  Forall (fun c => c = chr ".") s -> float_of_str s = None.
Proof.
  intros H. unfold float_of_str, parse_decimal.
  destruct H as [|c s -> Hs]; [reflexivity|].
  rewrite read_digits_period, N.eqb_refl.
  destruct Hs as [|d s -> Hs]; [reflexivity|].
  now rewrite read_digits_period.
Qed.

Lemma remove_commas_no_digit u :
  Forall (fun c => price_char c = true) u ->
  Forall (fun c => is_digit c = false) u ->
  Forall (fun c => c = chr ".") (remove_char (chr ",") u).
Proof.
  induction 1 as [|c u Hc _ IH]; intros Hd; [constructor|].
  inversion Hd as [|? ? Hc' Hu']; subst.
  rewrite price_char_cases, Hc' in Hc. cbn [orb] in Hc.
  cbn [remove_char filter]. fold (remove_char (chr ",") u).
  destruct (N.eqb_spec c (chr ",")) as [->|Hne]; cbn [negb]; [now apply IH|].
  constructor; [|now apply IH].
  cbn [orb] in Hc. now apply N.eqb_eq.
Qed.

(** C4 (as the code behaves): with the price container and its text node
    in place and no digit in the text, the extractor returns no price,
    raises nothing and records one diagnostic.  When the text holds no
    comma and no period either (as in "Contact seller") that diagnostic
    is the "Product price not found" warning, the very record a missing
    container produces; otherwise the first run of commas and periods
    fails the conversion and the "Failed to convert price to float" error
    is recorded. *)
Theorem price_text_without_digit self price_element price_text_tag :
  find (by_name_id "div" "corePrice_feature_div") (soup self)
  = Some price_element ->
  find (by_name_class "span" "a-offscreen") price_element
  = Some price_text_tag ->
  Forall (fun c => is_digit c = false) (get_text_strip price_text_tag) ->
  run (parse_product_price self)
  = (Return None,
     [if existsb price_char (get_text_strip price_text_tag)
      then error "Failed to convert price to float %s" [for_name self]
      else warning "Product price not found %s" [for_name self]]).
Proof.
  intros H1 H2 Hd. rewrite (price_run _ H1 H2).
  destruct (existsb price_char (get_text_strip price_text_tag)) eqn:Ex.
  - destruct (@search_price_some (get_text_strip price_text_tag))
      as (m & Em).
    { rewrite plain_existsb. congruence. }
    rewrite Em.
    destruct (search_price_shape _ Em) as (_ & Hu & pre & post & E).
    rewrite float_of_str_periods; [reflexivity|].
    apply remove_commas_no_digit; [exact Hu|].
    rewrite E in Hd. apply Forall_app in Hd as [_ Hd].
    now apply Forall_app in Hd as [Hd _].
  - apply plain_existsb in Ex. now rewrite search_price_none.
Qed.

Lemma price_text_without_digit_witness :
  let self := Pages.price_page (py "Contact seller") in
  exists price_element price_text_tag,
    find (by_name_id "div" "corePrice_feature_div") (soup self)
    = Some price_element /\
    find (by_name_class "span" "a-offscreen") price_element
    = Some price_text_tag /\
    get_text_strip price_text_tag = py "Contact seller" /\
    Forall (fun c => is_digit c = false) (get_text_strip price_text_tag) /\
    run (parse_product_price self)
    = (Return None, [warning "Product price not found %s" [py "for None"]]).
Proof.
  eexists _, _. split; [reflexivity|]. split; [reflexivity|].
  split; [reflexivity|].
  assert (Hd : Forall (fun c => is_digit c = false) (py "Contact seller")).
  { repeat constructor. }
  split; [exact Hd|].
  apply (@price_text_without_digit
           (Pages.price_page (py "Contact seller")) _ _
           eq_refl eq_refl Hd).
Defined.

(** C4 as stated fails: on the text "Contact seller" the extractor
    returns and records exactly what it returns and records when the page
    has no price container at all, so the diagnostic cannot be a
    malformed-value one as opposed to a missing-element one. *)
Lemma contact_seller_counterexample :
  run (parse_product_price (Pages.price_page (py "Contact seller")))
  = (Return None, [warning "Product price not found %s" [py "for None"]]) /\
  run (parse_product_price (Pages.page []))
  = (Return None, [warning "Product price not found %s" [py "for None"]]).
Proof. split; reflexivity. Qed.

Lemma keep_plain s : plain s -> keep_digits_and_point s = [].
Proof.
  induction 1 as [|c s Hc _ IH]; [reflexivity|].
  rewrite price_char_cases in Hc.
  apply orb_false_iff in Hc as [Hd Hc]. apply orb_false_iff in Hc as [_ Hp].
  unfold keep_digits_and_point in *. cbn [filter]. now rewrite Hd, Hp.
Qed.

Lemma comma_not_digit : is_digit (chr ",") = false.
Proof. reflexivity. Qed.

Lemma keep_price_chars u :
  Forall (fun c => price_char c = true) u ->
  keep_digits_and_point u = remove_char (chr ",") u.
Proof.
  induction 1 as [|c u Hc _ IH]; [reflexivity|].
  unfold keep_digits_and_point, remove_char in *. cbn [filter]. rewrite IH.
  rewrite price_char_cases in Hc.
  destruct (N.eqb_spec c (chr ",")) as [->|Hne]; [reflexivity|].
  cbn [negb]. cbn [orb] in Hc. now rewrite Hc.
Qed.

(** C5: when the price text is a currency symbol (or any text free of
    digits, commas and periods), then a run of digits, commas and
    periods, then again text free of them, the extractor returns what the
    worded rule gives: the float read from the digits and the decimal
    point that remain once everything else is dropped.  Nothing is
    logged. *)
Theorem price_of_formatted_text
        self price_element price_text_tag symbol num trailer x :
  find (by_name_id "div" "corePrice_feature_div") (soup self)
  = Some price_element ->
  find (by_name_class "span" "a-offscreen") price_element
  = Some price_text_tag ->
  get_text_strip price_text_tag = symbol ++ num ++ trailer ->
  plain symbol -> plain trailer ->
  num <> [] -> Forall (fun c => price_char c = true) num ->
  float_of_str (keep_digits_and_point (symbol ++ num ++ trailer)) = Some x ->
  run (parse_product_price self) = (Return (Some x), []).
Proof.
  intros H1 H2 Et Hs Ht Hne Hnum Hx.
  rewrite (price_run _ H1 H2), Et.
  rewrite search_price_run; auto.
  - cbn [group0].
    unfold keep_digits_and_point in Hx. rewrite !filter_app in Hx.
    fold (keep_digits_and_point symbol) in Hx.
    fold (keep_digits_and_point num) in Hx.
    fold (keep_digits_and_point trailer) in Hx.
    rewrite (keep_plain Hs), (keep_plain Ht), app_nil_r in Hx.
    cbn [app] in Hx. rewrite (keep_price_chars Hnum) in Hx.
    now rewrite Hx.
  - destruct Ht; [exact I|assumption].
Qed.

(** The sample of the specification: "$1,234.56" gives the float written
    1234.56, the binary64 value nearest to 123456/100. *)
Lemma price_of_formatted_text_witness :
  let self := Pages.price_page (py "$1,234.56") in
  exists price_element price_text_tag,
    find (by_name_id "div" "corePrice_feature_div") (soup self)
    = Some price_element /\
    find (by_name_class "span" "a-offscreen") price_element
    = Some price_text_tag /\
    get_text_strip price_text_tag = py "$" ++ py "1,234.56" ++ [] /\
    float_of_str (keep_digits_and_point (py "$" ++ py "1,234.56" ++ []))
    = Some f1234_56 /\
    nearest_to f1234_56 123456 100 /\
    run (parse_product_price self) = (Return (Some f1234_56), []).
Proof.
  eexists _, _. split; [reflexivity|]. split; [reflexivity|].
  split; [reflexivity|]. split; [reflexivity|].
  split; [vm_compute; discriminate|].
  apply (@price_of_formatted_text
           (Pages.price_page (py "$1,234.56")) _ _
           (py "$") (py "1,234.56") [] f1234_56 eq_refl eq_refl eq_refl).
  - repeat constructor.
  - constructor.
  - discriminate.
  - repeat constructor.
  - reflexivity.
Defined.

Lemma read_digits_inv s : forall acc n v n' r,
  read_digits s acc n = (v, n', r) ->
  exists ds, s = ds ++ r /\ all_digits ds.
Proof.
  induction s as [|c s IH]; intros acc n v n' r H; simpl in H.
  - inversion H; subst. exists []. split; [reflexivity|constructor].
  - destruct (digit_value c) as [d|] eqn:Ed.
    + apply IH in H as (ds & -> & Hds). exists (c :: ds).
      split; [reflexivity|]. constructor; [|exact Hds].
      unfold is_digit. now rewrite Ed.
    + inversion H; subst. exists []. split; [reflexivity|constructor].
Qed.

Lemma periods_app a b : periods (a ++ b) = periods a + periods b.
Proof. apply count_occ_app. Qed.

Lemma periods_digits ds : all_digits ds -> periods ds = 0.
Proof.
  induction 1 as [|c ds Hc _ IH]; [reflexivity|].
  unfold periods in *. rewrite count_occ_cons_neq; [exact IH|].
  intros ->. discriminate Hc.
Qed.

(** A numeral [float()] accepts holds at most one period. *)
Lemma parse_decimal_periods s m k :
  parse_decimal s = Some (m, k) -> periods s <= 1.
Proof.
  unfold parse_decimal.
  destruct (read_digits s 0 0) as [[m1 n1] r1] eqn:E1.
  apply read_digits_inv in E1 as (ds & -> & Hds).
  rewrite periods_app, (periods_digits Hds).
  destruct r1 as [|c r]; [intros _; cbn; lia|].
  destruct (N.eqb_spec c (chr ".")) as [->|]; [|discriminate].
  destruct (read_digits r m1 0) as [[m2 n2] r2] eqn:E2.
  apply read_digits_inv in E2 as (fs & -> & Hfs).
  destruct r2; [|discriminate]. intros _.
  rewrite app_nil_r. change (chr "." :: fs) with ([chr "."] ++ fs).
  rewrite periods_app, (periods_digits Hfs). simpl. lia.
Qed.

Lemma remove_char_gone c s : ~ In c (remove_char c s).
Proof.
  unfold remove_char. intros H. apply filter_In in H as [_ H].
  now rewrite N.eqb_refl in H.
Qed.

(** C8 (as the code behaves): a price the extractor returns is not
    negative and not a NaN.  It is read from the first run of digits,
    commas and periods of the price text, with the commas removed and at
    most one period left, and it is finite whenever that numeral is below
    10^308; beyond that it may be plus infinity. *)
Theorem price_value_nonnegative self x l :
  run (parse_product_price self) = (Return (Some x), l) ->
  leb zero x = true /\ is_nan x = false /\
  exists price_element price_text_tag price_match m k,
    find (by_name_id "div" "corePrice_feature_div") (soup self)
    = Some price_element /\
    find (by_name_class "span" "a-offscreen") price_element
    = Some price_text_tag /\
    search price_re (get_text_strip price_text_tag) = Some price_match /\
    let price_str := remove_char (chr ",") (group0 price_match) in
    ~ In (chr ",") price_str /\
    periods price_str <= 1 /\
    parse_decimal price_str = Some (m, k) /\
    x = of_decimal m k /\
    ((Z.of_N m < big * Zpos (pow10 k))%Z -> is_finite x = true).
Proof.
  intros H.
  destruct (find (by_name_id "div" "corePrice_feature_div") (soup self))
    as [price_element|] eqn:H1.
  2:{ unfold parse_product_price in H. rewrite H1 in H. discriminate H. }
  destruct (find (by_name_class "span" "a-offscreen") price_element)
    as [price_text_tag|] eqn:H2.
  2:{ unfold parse_product_price in H. rewrite H1, H2 in H. discriminate H. }
  rewrite (price_run _ H1 H2) in H.
  destruct (search price_re (get_text_strip price_text_tag))
    as [price_match|] eqn:Em; [|discriminate H].
  unfold float_of_str in H.
  destruct (parse_decimal (remove_char (chr ",") (group0 price_match)))
    as [[m k]|] eqn:Ep; [|discriminate H].
  inversion H; subst; clear H.
  split; [apply positive_sign_leb, of_decimal_sign|].
  split; [apply positive_sign_not_nan, of_decimal_sign|].
  exists price_element, price_text_tag, price_match, m, k.
  split; [first [reflexivity|assumption]|].
  split; [first [reflexivity|assumption]|].
  split; [first [reflexivity|assumption]|].
  cbv zeta. split; [apply remove_char_gone|].
  split; [exact (parse_decimal_periods _ Ep)|].
  split; [exact Ep|]. split; [reflexivity|].
  apply of_decimal_finite.
Qed.

Lemma price_value_nonnegative_witness :
  let self := Pages.price_page (py "$1,234.56") in
  run (parse_product_price self) = (Return (Some f1234_56), []) /\
  leb zero f1234_56 = true /\ is_nan f1234_56 = false /\
  exists price_element price_text_tag price_match m k,
    find (by_name_id "div" "corePrice_feature_div") (soup self)
    = Some price_element /\
    find (by_name_class "span" "a-offscreen") price_element
    = Some price_text_tag /\
    search price_re (get_text_strip price_text_tag) = Some price_match /\
    let price_str := remove_char (chr ",") (group0 price_match) in
    ~ In (chr ",") price_str /\
    periods price_str <= 1 /\
    parse_decimal price_str = Some (m, k) /\
    f1234_56 = of_decimal m k /\
    ((Z.of_N m < big * Zpos (pow10 k))%Z -> is_finite f1234_56 = true).
Proof.
  split; [reflexivity|].
  apply (@price_value_nonnegative
           (Pages.price_page (py "$1,234.56")) f1234_56 []).
  reflexivity.
Defined.

(** C8 as stated fails: a price text of four hundred nines is read as
    plus infinity, which is not finite. *)
Lemma price_overflow_counterexample :
  run (parse_product_price (Pages.price_page (repeat (chr "9") 400)))
  = (Return (Some (S754_infinity false)), []) /\
  is_finite (S754_infinity false) = false.
Proof. split; [vm_compute; reflexivity|reflexivity]. Qed.

End PriceProperties.

(* ===================================================================== *)
(** ** Seller extraction                                                  *)
(* ===================================================================== *)

Section SellerProperties.

Import Bs4 AmazonPageParser Terms.

(** C2 (as the code behaves): with the buy box and the offer features in
    place and exactly one of the "ships from" and "sold by" nodes there,
    the extractor does not report the seller as absent, and the only
    diagnostic it can record is the warning naming the node that is not
    there; it records exactly that one whenever the node that is there
    holds its text span. *)
Theorem seller_one_node_present
        self container_element seller_container present
        ships_from_element sold_by_element :
  find (by_id "desktop_qualifiedBuyBox") (soup self)
  = Some container_element ->
  find (by_id "offer-display-features") container_element
  = Some seller_container ->
  find (by_id "fulfillerInfoFeature_feature_div") seller_container
  = ships_from_element ->
  find (by_id "merchantInfoFeature_feature_div") seller_container
  = sold_by_element ->
  (ships_from_element = Some present /\ sold_by_element = None
   \/ ships_from_element = None /\ sold_by_element = Some present) ->
  fst (run (parse_product_seller self)) <> Return None /\
  (forall r, In r (snd (run (parse_product_seller self))) ->
             r = absent_warning ships_from_element) /\
  (find feature_text present <> None ->
   snd (run (parse_product_seller self))
   = [absent_warning ships_from_element]).
Proof.
  intros H1 H2 Hs Hb Hone.
  unfold parse_product_seller. rewrite H1, H2, Hs, Hb.
  destruct Hone as [[-> ->] | [-> ->]];
    destruct (find feature_text present) as [span|] eqn:Ef;
    unfold run, bind, get_text; rewrite ?Ef; cbn.
  - split; [discriminate|]. split; [|reflexivity].
    intros r [<- | []]. reflexivity.
  - split; [discriminate|]. split; [intros r []|]. now intros K.
  - split; [discriminate|]. split; [|reflexivity].
    intros r [<- | []]. reflexivity.
  - split; [discriminate|]. split; [|now intros K].
    intros r [<- | []]. reflexivity.
Qed.

Lemma seller_one_node_present_witness :
  let self := Pages.sold_by_only in
  exists container_element seller_container present,
    find (by_id "desktop_qualifiedBuyBox") (soup self)
    = Some container_element /\
    find (by_id "offer-display-features") container_element
    = Some seller_container /\
    find (by_id "fulfillerInfoFeature_feature_div") seller_container
    = None /\
    find (by_id "merchantInfoFeature_feature_div") seller_container
    = Some present /\
    find feature_text present <> None /\
    fst (run (parse_product_seller self)) <> Return None /\
    (forall r, In r (snd (run (parse_product_seller self))) ->
               r = ships_from_missing) /\
    snd (run (parse_product_seller self)) = [ships_from_missing].
Proof.
  eexists _, _, _. split; [reflexivity|]. split; [reflexivity|].
  split; [reflexivity|]. split; [reflexivity|].
  assert (Hspan : forall A (a : A), Some a <> None) by discriminate.
  split; [apply Hspan|].
  destruct (@seller_one_node_present Pages.sold_by_only _ _ _ None _
              eq_refl eq_refl eq_refl eq_refl
              (or_intror (conj eq_refl eq_refl))) as (K1 & K2 & K3).
  split; [exact K1|]. split; [exact K2|].
  apply K3, Hspan.
Defined.

(** C2 as stated fails: on a page that holds the "ships from" node only,
    the extractor records the "Sold by element not found" warning and
    then raises [UnboundLocalError] instead of returning a seller. *)
Lemma ships_from_only_counterexample :
  let self := Pages.ships_from_only in
  (exists container_element seller_container present,
      find (by_id "desktop_qualifiedBuyBox") (soup self)
      = Some container_element /\
      find (by_id "offer-display-features") container_element
      = Some seller_container /\
      find (by_id "fulfillerInfoFeature_feature_div") seller_container
      = Some present /\
      find (by_id "merchantInfoFeature_feature_div") seller_container
      = None /\
      get_text_strip present = py "Amazon.com") /\
  run (parse_product_seller self)
  = (Raise UnboundLocalError, [sold_by_missing]).
Proof.
  split; [|reflexivity].
  eexists _, _, _. repeat split; reflexivity.
Qed.

End SellerProperties.

(* ===================================================================== *)
(** ** Construction: empty and missing input                              *)
(* ===================================================================== *)

Section ConstructionProperties.

Import Bs4 Re AmazonPageParser Terms.

(** C9: on the empty string the parser is built over a tree without
    nodes, each of the title, price, image and seller extractors returns
    [None] and records one warning, and nothing raises. *)
Theorem empty_markup_all_absent lxml name :
  lxml [] = [] ->
  let self := {| soup := document []; user_product_name := name |} in
  run (__init__ lxml (Some []) name) = (Return self, []) /\
  run (parse_product_title self)
  = (Return None, [warning "Product title not found %s" [for_name self]]) /\
  run (parse_product_price self)
  = (Return None, [warning "Product price not found %s" [for_name self]]) /\
  run (parse_product_image self)
  = (Return None,
     [warning "Product image container not found %s" [for_name self]]) /\
  run (parse_product_seller self)
  = (Return None,
     [warning "Container element not found in the HTML content." []]) /\
  run (four_fields lxml (Some []) name)
  = (Return (None, None, None, None),
     [warning "Product title not found %s" [for_name self];
      warning "Product price not found %s" [for_name self];
      warning "Product image container not found %s" [for_name self];
      warning "Container element not found in the HTML content." []]).
Proof.
  intros Hempty self.
  assert (Hinit : run (__init__ lxml (Some []) name) = (Return self, [])).
  { unfold __init__, BeautifulSoup, run, bind, ret. now rewrite Hempty. }
  split; [exact Hinit|]. repeat split.
  unfold four_fields, run, bind in *. now rewrite Hinit.
Qed.

Lemma empty_markup_all_absent_witness :
  let lxml := Pages.one_page_builder Pages.limited_offer_markup
                (Pages.nodes [Pages.coupon_element "Limited time offer"]) in
  lxml [] = [] /\
  run (four_fields lxml (Some []) None)
  = (Return (None, None, None, None),
     [warning "Product title not found %s" [py "for None"];
      warning "Product price not found %s" [py "for None"];
      warning "Product image container not found %s" [py "for None"];
      warning "Container element not found in the HTML content." []]).
Proof.
  split; [reflexivity|].
  apply (@empty_markup_all_absent
           (Pages.one_page_builder Pages.limited_offer_markup
              (Pages.nodes [Pages.coupon_element "Limited time offer"]))
           None eq_refl).
Defined.

(** C3 (what the code does instead): building the parser on [None]
    raises [TypeError]; but so does a call on well-formed markup whose
    coupon container holds a message that matches neither pattern, so a
    question of page content reaches the caller as the same hard
    failure. *)
Theorem unclassified_coupon_is_fatal lxml html name coupon_element :
  find (by_id "promoPriceBlockMessage_feature_div") (document (lxml html))
  = Some coupon_element ->
  search fixed_amount_re (coupon_message_of coupon_element) = None ->
  search percent_re (coupon_message_of coupon_element) = None ->
  run (__init__ lxml None name) = (Raise TypeError, []) /\
  run (self <- __init__ lxml (Some html) name ;; parse_product_coupon self)
  = (Raise TypeError, []).
Proof.
  intros Hc Hf Hp. split; [reflexivity|].
  unfold __init__, BeautifulSoup, run, bind, ret.
  unfold parse_product_coupon. cbn [soup]. rewrite Hc.
  fold (coupon_message_of coupon_element).
  unfold check_coupon_type, bind. now rewrite Hf, Hp.
Qed.

Lemma unclassified_coupon_is_fatal_witness :
  let lxml := Pages.one_page_builder Pages.limited_offer_markup
                (Pages.nodes [Pages.coupon_element "Limited time offer"]) in
  let html := Pages.limited_offer_markup in
  (exists coupon_element,
      find (by_id "promoPriceBlockMessage_feature_div")
           (document (lxml html)) = Some coupon_element /\
      coupon_message_of coupon_element = py "Limited time offer" /\
      search fixed_amount_re (coupon_message_of coupon_element) = None /\
      search percent_re (coupon_message_of coupon_element) = None) /\
  run (__init__ lxml None None) = (Raise TypeError, []) /\
  run (self <- __init__ lxml (Some html) None ;; parse_product_coupon self)
  = (Raise TypeError, []).
Proof.
  split.
  - eexists. split; [reflexivity|]. repeat split.
  - apply (@unclassified_coupon_is_fatal
             (Pages.one_page_builder Pages.limited_offer_markup
                (Pages.nodes [Pages.coupon_element "Limited time offer"]))
             Pages.limited_offer_markup None _ eq_refl);
      reflexivity.
Defined.

End ConstructionProperties.

(* ===================================================================== *)
(** ** Further properties of the parser                                   *)
(* ===================================================================== *)

Section CouponScan.

Import Re ReSpec AmazonPageParser Terms Scan.

Lemma take_digits_spec s :
  s = fst (take_digits s) ++ snd (take_digits s) /\
  all_digits (fst (take_digits s)) /\
  match snd (take_digits s) with
  | [] => True
  | c :: _ => is_digit c = false
  end.
Proof.
  induction s as [|c s IH]; simpl.
  - repeat split. constructor.
  - destruct (is_digit c) eqn:Ec.
    + destruct (take_digits s) as [ds t]. simpl in *.
      destruct IH as (E & Hds & Ht). repeat split; auto.
      * now f_equal.
      * now constructor.
    + simpl. repeat split; [constructor|exact Ec].
Qed.

Lemma attempts_seq r1 r2 s :
  attempts (Seq r1 r2) s
  = flat_map (fun '(u1, g1, s1) =>
                map (fun '(u2, g2, s2) => (u1 ++ u2, g1 ++ g2, s2))
                    (attempts r2 s1))
             (attempts r1 s).
Proof. reflexivity. Qed.

Lemma attempts_fraction_head t :
  let '(f, r) := leading_fraction t in
  exists tl,
    attempts (Opt (Seq (Lit (chr ".")) (Rep CDigit 1 (Some 2)))) t
    = (f, [], r) :: tl.
Proof.
  unfold leading_fraction. cbn [attempts].
  destruct t as [|c [|d1 t']].
  - simpl. now eexists.
  - simpl. destruct (_ =? _)%N; simpl; now eexists.
  - destruct (N.eqb_spec c (chr ".")) as [->|Hc]; simpl.
    + destruct (is_digit d1) eqn:E1; simpl; [|now eexists].
      destruct t' as [|d2 t'']; simpl; [now eexists|].
      destruct (is_digit d2) eqn:E2; simpl.
      * destruct t''; simpl; now eexists.
      * now eexists.
    + now eexists.
Qed.

(** The first attempt of the numeral pattern is the leading numeral. *)
Lemma attempts_number_head s :
  match leading_numeral s with
  | None => attempts number_re s = []
  | Some (g, rest) => exists tl, attempts number_re s = (g, [], rest) :: tl
  end.
Proof.
  unfold leading_numeral, number_re. rewrite attempts_seq.
  destruct (take_digits_spec s) as (E & Hds & Ht).
  destruct (take_digits s) as [ds t]. simpl in E, Hds, Ht.
  destruct ds as [|d ds].
  - simpl in E. subst t. unfold Plus at 1.
    destruct s as [|c s]; [reflexivity|]. simpl in Ht |- *.
    now rewrite Ht.
  - assert (Hpost : match t with
                    | [] => True
                    | c :: _ => in_set CDigit c = false
                    end) by exact Ht.
    destruct (@rep_greedy CDigit t Hpost (d :: ds) 1 Hds) as (l & El);
      [simpl; lia|].
    unfold Plus at 1.
    pose proof (attempts_fraction_head t) as HR.
    destruct (leading_fraction t) as [f r]. destruct HR as (tl & HR).
    replace (attempts (Rep CDigit 1 None) s) with ((d :: ds, [], t) :: l)
      by (rewrite E; symmetry; exact El).
    cbn [flat_map]. rewrite HR. cbn [map app]. now eexists.
Qed.

(** Searching for the fixed-amount pattern finds the numeral after the
    first dollar sign that a digit follows. *)
Lemma search_fixed_amount text :
  search fixed_amount_re text
  = match first_dollar_amount text with
    | Some g => Some {| group0 := chr "$" :: g; groups := [g] |}
    | None => None
    end.
Proof.
  induction text as [|c s IH]; [reflexivity|].
  cbn [search first_dollar_amount]. unfold fixed_amount_re at 1.
  cbn [attempts]. unfold is_dollar.
  destruct (N.eqb_spec c (chr "$")) as [->|Hc].
  - cbn [flat_map]. rewrite app_nil_r, map_map.
    pose proof (attempts_number_head s) as H.
    destruct (leading_numeral s) as [[g rest]|].
    + destruct H as (tl & ->). reflexivity.
    + rewrite H. cbn [map]. exact IH.
  - exact IH.
Qed.


Lemma leading_numeral_none s :
  leading_numeral s = None <->
  match s with [] => True | c :: _ => is_digit c = false end.
Proof.
  unfold leading_numeral. destruct s as [|c s]; simpl; [tauto|].
  destruct (is_digit c); [|tauto].
  destruct (take_digits s) as [ds t]. destruct (leading_fraction t).
  split; discriminate.
Qed.

Lemma first_dollar_amount_pair text :
  first_dollar_amount text <> None <->
  has_pair is_dollar is_digit text = true.
Proof.
  induction text as [|c s IH]; simpl; [split; [intros K; now elim K|discriminate]|].
  pose proof (leading_numeral_none s) as HN.
  destruct (is_dollar c); simpl.
  - destruct s as [|d s']; simpl in *.
    + destruct (leading_numeral []) as [[g r]|]; [|split; [intros K; now elim K|discriminate]].
      destruct HN as [_ HN]. now specialize (HN I).
    + destruct (is_digit d) eqn:Ed; simpl.
      * destruct (leading_numeral (d :: s')) as [[g r]|].
        -- split; [reflexivity|discriminate].
        -- destruct HN as [HN _]. now specialize (HN eq_refl).
      * destruct (leading_numeral (d :: s')) as [[g r]|]; [|exact IH].
        destruct HN as [_ HN]. now specialize (HN eq_refl).
  - destruct s; [split; [intros K; now elim K|discriminate]|exact IH].
Qed.

Lemma has_pair_middle p q x a b y :
  p a = true -> q b = true -> has_pair p q (x ++ a :: b :: y) = true.
Proof.
  intros Ha Hb. induction x as [|c x IH]; simpl.
  - now rewrite Ha, Hb.
  - destruct (x ++ a :: b :: y) eqn:E; [now destruct x|].
    rewrite IH. apply orb_true_r.
Qed.

Lemma numeral_last g :
  Numeral g -> exists g' d, g = g' ++ [d] /\ is_digit d = true.
Proof.
  assert (last_digit : forall l, l <> [] -> all_digits l ->
            exists l' d, l = l' ++ [d] /\ is_digit d = true).
  { intros l Hne Hl. destruct (exists_last Hne) as (l' & d & ->).
    exists l', d. split; [reflexivity|].
    apply Forall_app in Hl as [_ Hl]. now inversion Hl. }
  intros [ds Hne Hds | ds fs Hne Hds Hfs Hlen].
  - now apply last_digit.
  - destruct (last_digit fs) as (l' & d & -> & Hd); auto.
    { destruct fs; [simpl in Hlen; lia|discriminate]. }
    exists (ds ++ chr "." :: l'), d. split; [|exact Hd].
    now rewrite <- app_assoc.
Qed.

Lemma percent_not_digit : is_digit (chr "%") = false.
Proof. reflexivity. Qed.

Lemma attempts_percent_head d t :
  is_digit d = true -> attempts percent_re (d :: chr "%" :: t) <> [].
Proof.
  intros Hd. unfold percent_re. rewrite attempts_seq. cbn [attempts].
  pose proof (attempts_number_head (d :: chr "%" :: t)) as H.
  unfold leading_numeral in H. cbn [take_digits] in H.
  rewrite Hd, percent_not_digit in H.
  replace (leading_fraction (chr "%" :: t)) with (@nil char, chr "%" :: t)
    in H by (destruct t; reflexivity).
  destruct H as (tl & ->). cbn. discriminate.
Qed.

Lemma search_percent_pair text :
  search percent_re text <> None <->
  has_pair is_digit is_percent text = true.
Proof.
  split.
  - destruct (search percent_re text) as [m|] eqn:E; [intros _|congruence].
    destruct (percent_match_shape _ E) as (HN & pre & rest & ->).
    destruct (numeral_last HN) as (g' & d & -> & Hd).
    rewrite <- !app_assoc. rewrite app_assoc. cbn [app].
    now apply has_pair_middle.
  - induction text as [|c s IH]; [discriminate|].
    cbn [search has_pair]. destruct s as [|b s]; [discriminate|].
    destruct (is_digit c && is_percent b) eqn:Ecb; cbn [orb].
    + apply andb_true_iff in Ecb as [Hc Hb]. apply N.eqb_eq in Hb. subst b.
      intros _. pose proof (@attempts_percent_head c s Hc) as K.
      destruct (attempts percent_re (c :: chr "%" :: s)) as [|[[u g] r] l];
        [contradiction|discriminate].
    + intros H. specialize (IH H).
      destruct (attempts percent_re (c :: b :: s)) as [|[[u g] r] l];
        [exact IH|discriminate].
Qed.

Lemma search_fixed_pair text :
  search fixed_amount_re text <> None <->
  has_pair is_dollar is_digit text = true.
Proof.
  rewrite <- first_dollar_amount_pair, search_fixed_amount.
  destruct (first_dollar_amount text); split; congruence.
Qed.


(** [check_coupon_type] decided by what the text holds. *)
Lemma check_coupon_type_by_pairs text :
  if has_pair is_dollar is_digit text then
    exists x, run (check_coupon_type text)
              = (Return (Some (py "fixed", x)), [])
  else if has_pair is_digit is_percent text then
    exists x, run (check_coupon_type text)
              = (Return (Some (py "percentage", x)), [])
  else run (check_coupon_type text) = (Return None, []).
Proof.
  pose proof (search_fixed_pair text) as Hf.
  pose proof (search_percent_pair text) as Hp.
  pose proof (check_coupon_type_cases text) as C.
  destruct (has_pair is_dollar is_digit text).
  - inversion C as [m x Ef Ex E | m x Ef | Ef]; [now exists x| |];
      destruct Hf as [_ Hf]; now elim (Hf eq_refl).
  - assert (Ef : search fixed_amount_re text = None).
    { destruct (search fixed_amount_re text); [|reflexivity].
      destruct Hf as [Hf _]. discriminate Hf. discriminate. }
    destruct (has_pair is_digit is_percent text).
    + inversion C as [m x Ef' | m x _ Ep Ex E | _ Ep]; [congruence|now exists x|].
      destruct Hp as [_ Hp]. now elim (Hp eq_refl).
    + inversion C as [m x Ef' | m x _ Ep | _ Ep]; [congruence| |reflexivity].
      destruct Hp as [Hp _]. discriminate Hp. congruence.
Qed.


(** X2: a fixed amount is read from the numeral after the first dollar
    sign that a digit follows: all the digits there, and one or two more
    after a period when a digit follows the period.  A thousands
    separator or a third decimal ends the numeral. *)
Theorem fixed_amount_is_first_dollar_numeral text x l :
  run (check_coupon_type text) = (Return (Some (py "fixed", x)), l)
  <-> exists g, first_dollar_amount text = Some g
                /\ PyFloat.float_of_str g = Some x /\ l = [].
Proof.
  pose proof (check_coupon_type_cases text) as C.
  pose proof (search_fixed_amount text) as S.
  split.
  - intros H. rewrite H in C.
    inversion C as [m y Ef Ey | m y Ef Ep Ey | Ef Ep]; subst.
    rewrite Ef in S. destruct (first_dollar_amount text) as [g|];
      [|discriminate S].
    inversion S; subst. exists g. now repeat split.
  - intros (g & Eg & Ex & ->). rewrite Eg in S.
    inversion C as [m y Ef Ey E | m y Ef | Ef]; try congruence.
    rewrite S in Ef. inversion Ef; subst. unfold group1 in Ey. simpl in Ey.
    congruence.
Qed.

Lemma fixed_amount_is_first_dollar_numeral_witness :
  first_dollar_amount (py "$1,000 off orders") = Some (py "1") /\
  run (check_coupon_type (py "$1,000 off orders"))
  = (Return (Some (py "fixed", PyFloat.of_decimal 1 0)), []).
Proof.
  split; [reflexivity|].
  apply (proj2 (fixed_amount_is_first_dollar_numeral
                  (py "$1,000 off orders") (PyFloat.of_decimal 1 0) [])).
  exists (py "1"). repeat split.
Defined.

End CouponScan.

Section CouponOutcomes.

Import Bs4 Re ReSpec AmazonPageParser Terms Scan.

(** What [parse_product_coupon] does once the coupon container is
    found. *)
Lemma coupon_run_found self coupon_element :
  find (by_id "promoPriceBlockMessage_feature_div") (soup self)
  = Some coupon_element ->
  run (parse_product_coupon self)
  = match run (check_coupon_type (coupon_message_of coupon_element)) with
    | (Return (Some (t, x)), l) =>
        if negb (PyStr.truthy t) && negb (PyFloat.truthy x)
        then (Return None,
              l ++ [warning "Unable to determine coupon type %s"
                            [for_name self]])
        else (Return (Some {| type := t; amount := x |}), l)
    | (Return None, l) => (Raise TypeError, l)
    | (Raise e, l) => (Raise e, l)
    end.
Proof.
  intros H. unfold parse_product_coupon. rewrite H.
  fold (coupon_message_of coupon_element).
  unfold run, bind.
  destruct (check_coupon_type (coupon_message_of coupon_element) [])
    as [[[[t x]|]|e] l]; try reflexivity.
  cbn. destruct (negb (PyStr.truthy t) && negb (PyFloat.truthy x)); reflexivity.
Qed.

Lemma coupon_run_cases self :
  match find (by_id "promoPriceBlockMessage_feature_div") (soup self) with
  | None => run (parse_product_coupon self) = (Return None, [no_coupon self])
  | Some coupon_element =>
      let message := coupon_message_of coupon_element in
      if has_pair is_dollar is_digit message then
        exists x, run (parse_product_coupon self)
                  = (Return (Some {| type := py "fixed"; amount := x |}), [])
      else if has_pair is_digit is_percent message then
        exists x, run (parse_product_coupon self)
                  = (Return (Some {| type := py "percentage"; amount := x |}),
                     [])
      else run (parse_product_coupon self) = (Raise TypeError, [])
  end.
Proof.
  destruct (find (by_id "promoPriceBlockMessage_feature_div") (soup self))
    as [coupon_element|] eqn:H.
  - cbv zeta. rewrite (coupon_run_found _ H).
    pose proof (check_coupon_type_by_pairs (coupon_message_of coupon_element))
      as C.
    destruct (has_pair is_dollar is_digit (coupon_message_of coupon_element));
      [|destruct (has_pair is_digit is_percent
                    (coupon_message_of coupon_element))].
    + destruct C as (x & ->). now exists x.
    + destruct C as (x & ->). now exists x.
    + now rewrite C.
  - unfold parse_product_coupon. rewrite H. reflexivity.
Qed.

(** X4: the coupon extractor has three outcomes.  Without a coupon
    container it returns [None] and records the informational "No coupon
    found".  With one, it returns a coupon and records nothing when the
    message holds a dollar sign directly followed by a digit (fixed) or,
    failing that, a digit directly followed by a percent sign
    (percentage); otherwise it raises [TypeError]. *)
Theorem coupon_outcomes self :
  match find (by_id "promoPriceBlockMessage_feature_div") (soup self) with
  | None => run (parse_product_coupon self) = (Return None, [no_coupon self])
  | Some coupon_element =>
      let message := coupon_message_of coupon_element in
      if has_pair is_dollar is_digit message then
        exists x, run (parse_product_coupon self)
                  = (Return (Some {| type := py "fixed"; amount := x |}), [])
      else if has_pair is_digit is_percent message then
        exists x, run (parse_product_coupon self)
                  = (Return (Some {| type := py "percentage"; amount := x |}),
                     [])
      else run (parse_product_coupon self) = (Raise TypeError, [])
  end.
Proof. exact (coupon_run_cases self). Qed.

(** X5: the "Unable to determine coupon type" warning is never recorded:
    whatever the document, the only record the coupon extractor can leave
    is the informational one for a missing container, and it returns
    [None] only then. *)
Theorem coupon_warning_never_logged self :
  (forall r, In r (snd (run (parse_product_coupon self))) ->
             r = no_coupon self) /\
  (fst (run (parse_product_coupon self)) = Return None <->
   find (by_id "promoPriceBlockMessage_feature_div") (soup self) = None).
Proof.
  pose proof (coupon_run_cases self) as H.
  destruct (find (by_id "promoPriceBlockMessage_feature_div") (soup self))
    as [coupon_element|].
  - cbv zeta in H.
    destruct (has_pair is_dollar is_digit (coupon_message_of coupon_element));
      [|destruct (has_pair is_digit is_percent
                    (coupon_message_of coupon_element))];
      [destruct H as (x & ->)|destruct H as (x & ->)|rewrite H];
      (split; [intros r []|split; discriminate]).
  - rewrite H. split; [|split; reflexivity].
    intros r [<- | []]. reflexivity.
Qed.

(** X6: an empty coupon label is not replaced by the text of the
    container: when the label node is there but holds no text, the
    extractor raises [TypeError] whatever else the container says. *)
Theorem empty_coupon_label_raises self coupon_element label :
  find (by_id "promoPriceBlockMessage_feature_div") (soup self)
  = Some coupon_element ->
  find (by_name_class "span" "a-color-success couponLabelText")
       coupon_element = Some label ->
  get_text_strip label = [] ->
  run (parse_product_coupon self) = (Raise TypeError, []).
Proof.
  intros Hc Hl He. pose proof (coupon_run_cases self) as H.
  rewrite Hc in H. cbv zeta in H. unfold coupon_message_of in H.
  rewrite Hl, He in H. exact H.
Qed.

Lemma empty_coupon_label_raises_witness :
  let self := Samples.empty_label_page in
  exists coupon_element label,
    find (by_id "promoPriceBlockMessage_feature_div") (soup self)
    = Some coupon_element /\
    find (by_name_class "span" "a-color-success couponLabelText")
         coupon_element = Some label /\
    get_text_strip label = [] /\
    get_text_strip coupon_element = py "Save $5" /\
    run (parse_product_coupon self) = (Raise TypeError, []).
Proof.
  eexists _, _. split; [reflexivity|]. split; [reflexivity|].
  split; [reflexivity|]. split; [reflexivity|].
  apply (@empty_coupon_label_raises Samples.empty_label_page _ _
           eq_refl eq_refl eq_refl).
Defined.

End CouponOutcomes.

Section SellerOutcomes.

Import Bs4 AmazonPageParser Terms Scan.

Lemma seller_run self :
  run (parse_product_seller self)
  = match find (by_id "desktop_qualifiedBuyBox") (soup self) with
    | None => (Return None, [no_container])
    | Some container_element =>
        match find (by_id "offer-display-features") container_element with
        | None => (Return None, [no_seller_container])
        | Some seller_container =>
            seller_outcome
              (find (by_id "fulfillerInfoFeature_feature_div")
                    seller_container)
              (find (by_id "merchantInfoFeature_feature_div")
                    seller_container)
        end
    end.
Proof.
  unfold parse_product_seller.
  destruct (find (by_id "desktop_qualifiedBuyBox") (soup self))
    as [container_element|]; [|reflexivity].
  destruct (find (by_id "offer-display-features") container_element)
    as [seller_container|]; [|reflexivity].
  unfold seller_outcome, feature_of.
  destruct (find (by_id "fulfillerInfoFeature_feature_div") seller_container)
    as [a|];
    destruct (find (by_id "merchantInfoFeature_feature_div") seller_container)
      as [b|];
    try destruct (find feature_text a);
    try destruct (find feature_text b);
    reflexivity.
Qed.

(** X7: the seller extractor returns a seller exactly when both the
    "ships from" and the "sold by" node are there and each holds its
    text span; the two values are the stripped texts, an empty text
    becoming [None], and nothing is recorded. *)
Theorem seller_returned_iff_both_present self s l :
  run (parse_product_seller self) = (Return (Some s), l)
  <-> exists container_element seller_container a b x y,
      find (by_id "desktop_qualifiedBuyBox") (soup self)
      = Some container_element /\
      find (by_id "offer-display-features") container_element
      = Some seller_container /\
      find (by_id "fulfillerInfoFeature_feature_div") seller_container
      = Some a /\
      find (by_id "merchantInfoFeature_feature_div") seller_container
      = Some b /\
      feature_of a = Some x /\ feature_of b = Some y /\
      s = {| ships_from := if_truthy x; sold_by := if_truthy y |} /\
      l = [].
Proof.
  rewrite seller_run. split.
  - destruct (find (by_id "desktop_qualifiedBuyBox") (soup self))
      as [c|]; [|discriminate].
    destruct (find (by_id "offer-display-features") c) as [f|] eqn:Ef;
      [|discriminate].
    unfold seller_outcome.
    destruct (find (by_id "fulfillerInfoFeature_feature_div") f)
      as [a|] eqn:Fa;
      destruct (find (by_id "merchantInfoFeature_feature_div") f)
        as [b|] eqn:Fb;
      try destruct (feature_of a) as [x|] eqn:Ea;
      try destruct (feature_of b) as [y|] eqn:Eb;
      try discriminate.
    intros H. inversion H; subst.
    exists c, f, a, b, x, y. repeat split; assumption.
  - intros (c & f & a & b & x & y & -> & -> & -> & -> & Ea & Eb & -> & ->).
    unfold seller_outcome. now rewrite Ea, Eb.
Qed.

Lemma seller_returned_iff_both_present_witness :
  run (parse_product_seller Samples.both_sellers)
  = (Return (Some {| ships_from := Some (py "Amazon.com");
                     sold_by := Some (py "Acme Ltd") |}), []).
Proof.
  apply (proj2 (seller_returned_iff_both_present Samples.both_sellers
                  {| ships_from := Some (py "Amazon.com");
                     sold_by := Some (py "Acme Ltd") |} [])).
  eexists _, _, _, _, _, _.
  split; [reflexivity|]. split; [reflexivity|]. split; [reflexivity|].
  split; [reflexivity|]. split; [reflexivity|]. split; [reflexivity|].
  split; reflexivity.
Defined.

(** X8: the seller extractor returns [None] in three situations only: no
    buy box (one warning), no offer features inside it (one warning), or
    neither node inside the features, in which case it records three
    warnings: one per missing node and one for both. *)
Theorem seller_absent_iff self l :
  run (parse_product_seller self) = (Return None, l)
  <-> (find (by_id "desktop_qualifiedBuyBox") (soup self) = None
       /\ l = [no_container])
      \/ (exists container_element,
             find (by_id "desktop_qualifiedBuyBox") (soup self)
             = Some container_element /\
             find (by_id "offer-display-features") container_element = None
             /\ l = [no_seller_container])
      \/ (exists container_element seller_container,
             find (by_id "desktop_qualifiedBuyBox") (soup self)
             = Some container_element /\
             find (by_id "offer-display-features") container_element
             = Some seller_container /\
             find (by_id "fulfillerInfoFeature_feature_div") seller_container
             = None /\
             find (by_id "merchantInfoFeature_feature_div") seller_container
             = None /\
             l = [ships_from_missing; sold_by_missing; neither_node]).
Proof.
  rewrite seller_run. split.
  - destruct (find (by_id "desktop_qualifiedBuyBox") (soup self)) as [c|].
    2:{ intros H. inversion H. left. now split. }
    destruct (find (by_id "offer-display-features") c) as [f|] eqn:Ef.
    2:{ intros H. inversion H. right. left. exists c. now repeat split. }
    unfold seller_outcome.
    destruct (find (by_id "fulfillerInfoFeature_feature_div") f) as [a|] eqn:Ea;
      destruct (find (by_id "merchantInfoFeature_feature_div") f) as [b|] eqn:Eb;
      try destruct (feature_of a);
      try destruct (feature_of b);
      try discriminate.
    intros H. inversion H. right. right. exists c, f. now repeat split.
  - intros [[-> ->] | [(c & -> & -> & ->) | (c & f & -> & -> & -> & -> & ->)]];
      reflexivity.
Qed.

(** X9: the seller extractor raises only [UnboundLocalError] or
    [AttributeError]: the first only when one node is there with its
    text span and the other node is not, the second only when a node
    that is there lacks its text span. *)
Theorem seller_raises_only self e l :
  run (parse_product_seller self) = (Raise e, l) ->
  exists container_element seller_container,
    find (by_id "desktop_qualifiedBuyBox") (soup self)
    = Some container_element /\
    find (by_id "offer-display-features") container_element
    = Some seller_container /\
    let ships := find (by_id "fulfillerInfoFeature_feature_div")
                      seller_container in
    let sold := find (by_id "merchantInfoFeature_feature_div")
                     seller_container in
    (e = UnboundLocalError /\
     (exists a, ships = Some a /\ feature_of a <> None /\ sold = None
                /\ l = [sold_by_missing])
     \/ e = UnboundLocalError /\
        (exists b, ships = None /\ sold = Some b /\ feature_of b <> None
                   /\ l = [ships_from_missing])
     \/ e = AttributeError /\
        (exists n, (ships = Some n \/ sold = Some n) /\ feature_of n = None)).
Proof.
  rewrite seller_run.
  destruct (find (by_id "desktop_qualifiedBuyBox") (soup self)) as [c|];
    [|discriminate].
  destruct (find (by_id "offer-display-features") c) as [f|] eqn:Ef;
    [|discriminate].
  intros H. exists c, f. split; [reflexivity|]. split; [exact Ef|].
  cbv zeta. unfold seller_outcome in H.
  destruct (find (by_id "fulfillerInfoFeature_feature_div") f) as [a|];
    destruct (find (by_id "merchantInfoFeature_feature_div") f) as [b|];
    try destruct (feature_of a) as [x|] eqn:Ea;
    try destruct (feature_of b) as [y|] eqn:Eb;
    inversion H; subst.
  - right. right. split; [reflexivity|]. exists b. split; [now right|exact Eb].
  - right. right. split; [reflexivity|]. exists a. split; [now left|exact Ea].
  - right. right. split; [reflexivity|]. exists a. split; [now left|exact Ea].
  - left. split; [reflexivity|]. exists a.
    repeat split; try reflexivity. rewrite Ea. discriminate.
  - right. right. split; [reflexivity|]. exists a. split; [now left|exact Ea].
  - right. left. split; [reflexivity|]. exists b.
    repeat split; try reflexivity. rewrite Eb. discriminate.
  - right. right. split; [reflexivity|]. exists b. split; [now right|exact Eb].
Qed.

Lemma seller_raises_only_witness :
  run (parse_product_seller Pages.ships_from_only)
  = (Raise UnboundLocalError, [sold_by_missing]) /\
  exists container_element seller_container,
    find (by_id "desktop_qualifiedBuyBox") (soup Pages.ships_from_only)
    = Some container_element /\
    find (by_id "offer-display-features") container_element
    = Some seller_container /\
    let ships := find (by_id "fulfillerInfoFeature_feature_div")
                      seller_container in
    let sold := find (by_id "merchantInfoFeature_feature_div")
                     seller_container in
    (UnboundLocalError = UnboundLocalError /\
     (exists a, ships = Some a /\ feature_of a <> None /\ sold = None
                /\ [sold_by_missing] = [sold_by_missing])
     \/ UnboundLocalError = UnboundLocalError /\
        (exists b, ships = None /\ sold = Some b /\ feature_of b <> None
                   /\ [sold_by_missing] = [ships_from_missing])
     \/ UnboundLocalError = AttributeError /\
        (exists n, (ships = Some n \/ sold = Some n) /\ feature_of n = None)).
Proof.
  split; [reflexivity|].
  apply (@seller_raises_only Pages.ships_from_only UnboundLocalError
           [sold_by_missing] eq_refl).
Defined.

End SellerOutcomes.

Section Trimmed.

Import Bs4 AmazonPageParser Terms Scan.

Lemma lstrip_starts_clean s : starts_clean (lstrip s).
Proof.
  induction s as [|c s IH]; simpl; [exact I|].
  destruct (is_space c) eqn:E; [exact IH|exact E].
Qed.

Lemma lstrip_clean s : starts_clean s -> lstrip s = s.
Proof. destruct s as [|c s]; simpl; [reflexivity|]. now intros ->. Qed.

(** [lstrip] drops a prefix. *)
Lemma lstrip_suffix s : exists p, s = p ++ lstrip s.
Proof.
  induction s as [|c s (p & IH)]; simpl; [now exists []|].
  destruct (is_space c); [|now exists []].
  exists (c :: p). simpl. now f_equal.
Qed.

Lemma starts_clean_prefix a b :
  starts_clean (a ++ b) -> a <> [] -> starts_clean a.
Proof. destruct a; [contradiction|]. simpl. auto. Qed.

Lemma strip_trimmed s : trimmed (strip s).
Proof.
  unfold trimmed, strip, rstrip. rewrite rev_involutive.
  split; [|apply lstrip_starts_clean].
  destruct (lstrip_suffix (rev (lstrip s))) as (p & E).
  destruct (rev (lstrip (rev (lstrip s)))) as [|c r] eqn:Er; [exact I|].
  apply (f_equal (@rev char)) in E.
  rewrite rev_involutive, rev_app_distr, Er in E.
  pose proof (lstrip_starts_clean s) as H. rewrite E in H. exact H.
Qed.

Lemma trimmed_strip s : trimmed s -> strip s = s.
Proof.
  intros [H1 H2]. unfold strip, rstrip.
  rewrite (lstrip_clean _ H1), (lstrip_clean _ H2). apply rev_involutive.
Qed.

Lemma trimmed_app a b :
  a <> [] -> b <> [] -> trimmed a -> trimmed b -> trimmed (a ++ b).
Proof.
  intros Ha Hb [A1 A2] [B1 B2]. split.
  - destruct a; [contradiction|exact A1].
  - rewrite rev_app_distr. destruct (rev b) eqn:E; [|exact B2].
    apply (f_equal (@rev char)) in E. rewrite rev_involutive in E.
    contradiction.
Qed.

Lemma trimmed_concat l :
  Forall (fun x => x <> [] /\ trimmed x) l -> trimmed (concat l).
Proof.
  induction 1 as [|x l [Hx Tx] Hl IH]; [split; exact I|].
  simpl. destruct (concat l) eqn:E.
  - now rewrite app_nil_r.
  - apply trimmed_app; auto. discriminate.
Qed.

(** The text [get_text(strip=True)] returns is itself stripped. *)
Lemma get_text_strip_trimmed t : strip (Bs4.get_text_strip t) = Bs4.get_text_strip t.
Proof.
  apply trimmed_strip. unfold Bs4.get_text_strip. apply trimmed_concat.
  apply Forall_forall. intros x Hx.
  apply filter_In in Hx as [Hx Ht]. apply in_map_iff in Hx as (y & <- & _).
  split; [|apply strip_trimmed].
  destruct (strip y); [discriminate Ht|discriminate].
Qed.

End Trimmed.

Section FieldOutcomes.

Import Bs4 AmazonPageParser Terms Scan PyFloat.

(** X10: a title that is returned is already stripped (stripping it again
    changes nothing), and it is returned without any record. *)
Theorem title_is_stripped self title l :
  run (parse_product_title self) = (Return (Some title), l) ->
  strip title = title /\ l = [] /\
  exists title_tag,
    find (by_id "title_feature_div") (soup self) = Some title_tag /\
    title = get_text_strip title_tag.
Proof.
  unfold parse_product_title.
  destruct (find (by_id "title_feature_div") (soup self)) as [t|];
    [|discriminate].
  intros H. inversion H; subst.
  split; [apply get_text_strip_trimmed|]. split; [reflexivity|].
  now exists t.
Qed.

Lemma title_is_stripped_witness :
  run (parse_product_title Samples.title_page)
  = (Return (Some (py "WidgetPro")), []) /\
  strip (py "WidgetPro") = py "WidgetPro" /\ @nil LogRecord = [] /\
  exists title_tag,
    find (by_id "title_feature_div") (soup Samples.title_page)
    = Some title_tag /\
    py "WidgetPro" = get_text_strip title_tag.
Proof.
  split; [reflexivity|].
  apply (@title_is_stripped Samples.title_page (py "WidgetPro") [] eq_refl).
Defined.

Lemma price_run_total self :
  exists r l, run (parse_product_price self) = (Return r, l) /\
              match r with Some _ => l = [] | None => length l = 1 end.
Proof.
  destruct (find (by_name_id "div" "corePrice_feature_div") (soup self))
    as [price_element|] eqn:H1.
  2:{ unfold parse_product_price. rewrite H1. now eexists _, _. }
  destruct (find (by_name_class "span" "a-offscreen") price_element)
    as [price_text_tag|] eqn:H2.
  2:{ unfold parse_product_price. rewrite H1, H2. now eexists _, _. }
  rewrite (price_run _ H1 H2).
  destruct (Re.search price_re (get_text_strip price_text_tag)) as [m|];
    [|now eexists _, _].
  destruct (float_of_str _); now eexists _, _.
Qed.

(** X11: the title, price and image extractors never raise: on every
    document each returns, with no record when it returns a value and
    exactly one record when it returns [None]. *)
Theorem title_price_image_never_raise self :
  (exists r l, run (parse_product_title self) = (Return r, l) /\
               match r with Some _ => l = [] | None => length l = 1 end) /\
  (exists r l, run (parse_product_price self) = (Return r, l) /\
               match r with Some _ => l = [] | None => length l = 1 end) /\
  (exists r l, run (parse_product_image self) = (Return r, l) /\
               match r with Some _ => l = [] | None => length l = 1 end).
Proof.
  split; [|split; [apply price_run_total|]].
  - unfold parse_product_title.
    destruct (find (by_id "title_feature_div") (soup self));
      now eexists _, _.
  - unfold parse_product_image.
    destruct (find (by_id "imgTagWrapperId") (soup self)) as [c|];
      [|now eexists _, _].
    destruct (find (by_name "img") c) as [img|]; [|now eexists _, _].
    unfold has_attr. destruct (get (attrs img) (py "src")) as [v|];
      now eexists _, _.
Qed.

(** X12: the image extractor returns a value exactly when the image
    wrapper is there and the first [img] tag below it has a [src]
    attribute, whose value it returns; later [img] tags are not
    looked at. *)
Theorem image_is_first_img_src self v l :
  run (parse_product_image self) = (Return (Some v), l)
  <-> exists image_container img_tag,
      find (by_id "imgTagWrapperId") (soup self) = Some image_container /\
      find (by_name "img") image_container = Some img_tag /\
      get (attrs img_tag) (py "src") = Some v /\ l = [].
Proof.
  unfold parse_product_image. split.
  - destruct (find (by_id "imgTagWrapperId") (soup self)) as [c|];
      [|discriminate].
    destruct (find (by_name "img") c) as [img|] eqn:Ei; [|discriminate].
    unfold has_attr.
    destruct (get (attrs img) (py "src")) as [w|] eqn:Es; [|discriminate].
    intros H. inversion H; subst. exists c, img. now repeat split.
  - intros (c & img & -> & -> & Es & ->). unfold has_attr. now rewrite Es.
Qed.

End FieldOutcomes.

Section PercentDecimals.

Import Bs4 Re ReSpec AmazonPageParser Terms Scan.

Lemma search_skips_at r s pre :
  (forall a b, pre = a ++ b -> b <> [] -> attempts r (b ++ s) = []) ->
  search r (pre ++ s) = search r s.
Proof.
  induction pre as [|c pre IH]; intros H; [reflexivity|].
  simpl app. cbn [search].
  pose proof (H [] (c :: pre) eq_refl ltac:(discriminate)) as K.
  simpl app in K. rewrite K.
  apply IH. intros a b -> Hb. apply (H (c :: a) b); auto.
Qed.

Lemma first_occurrence (c : char) a : forall b x y,
  a ++ c :: x = b ++ c :: y -> ~ In c a -> ~ In c b -> a = b.
Proof.
  induction a as [|h a IH]; intros [|h' b] x y E Ha Hb; simpl in *.
  - reflexivity.
  - inversion E; subst. elim Hb. now left.
  - inversion E; subst. elim Ha. now left.
  - inversion E; subst. f_equal. apply (IH b x y); auto.
Qed.

Lemma last_occurrence (c : char) x y a b :
  x ++ c :: a = y ++ c :: b -> ~ In c a -> ~ In c b -> a = b.
Proof.
  intros E Ha Hb. apply (f_equal (@rev char)) in E.
  rewrite !rev_app_distr in E. simpl in E. rewrite <- !app_assoc in E.
  simpl in E. apply first_occurrence in E.
  - apply (f_equal (@rev char)) in E. now rewrite !rev_involutive in E.
  - now rewrite <- in_rev.
  - now rewrite <- in_rev.
Qed.

Lemma digits_no_period l : all_digits l -> ~ In (chr ".") l.
Proof.
  intros H K. apply (proj1 (Forall_forall _ _) H) in K. discriminate K.
Qed.

Lemma numeral_chars n c :
  Numeral n -> In c n -> is_digit c = true \/ c = chr ".".
Proof.
  intros [ds _ Hds | ds fs _ Hds Hfs _] Hc.
  - left. exact (proj1 (Forall_forall _ _) Hds _ Hc).
  - apply in_app_or in Hc as [Hc | [<- | Hc]].
    + left. exact (proj1 (Forall_forall _ _) Hds _ Hc).
    + now right.
    + left. exact (proj1 (Forall_forall _ _) Hfs _ Hc).
Qed.

Lemma numeral_no_percent n : Numeral n -> ~ In (chr "%") n.
Proof.
  intros H K. destruct (@numeral_chars _ _ H K) as [E | E]; discriminate E.
Qed.

(** A numeral cannot end in a period followed by three or more
    digits. *)
Lemma numeral_not_long_fraction b fs :
  all_digits fs -> 3 <= length fs -> ~ Numeral (b ++ chr "." :: fs).
Proof.
  intros Hfs Hlen H.
  inversion H as [ds Hne Hds E | ds fs' Hne Hds Hfs' Hlen' E].
  - apply Forall_app in Hds as [_ Hds].
    inversion Hds as [|? ? K _]. discriminate K.
  - apply last_occurrence in E; auto using digits_no_period.
    subst fs'. lia.
Qed.

Lemma percent_attempt_shape s u g r :
  In (u, g, r) (attempts AmazonPageParser.percent_re s) ->
  exists n, Numeral n /\ s = n ++ chr "%" :: r.
Proof.
  intros H. apply attempts_sound in H as (E & M).
  unfold percent_re in M.
  inversion M as [| | r1 r2 u1 g1 u2 g2 H1 H2 | | |]; subst; clear M.
  inversion H2; subst; clear H2.
  inversion H1 as [| | | | |r0 v g0 HM]; subst; clear H1.
  apply number_re_numeral in HM as (_ & HN).
  exists u1. split; [exact HN|]. now rewrite <- app_assoc.
Qed.

Lemma has_pair_app_r p q a t :
  has_pair p q t = true -> has_pair p q (a ++ t) = true.
Proof.
  intros H. induction a as [|c a IH]; [exact H|].
  cbn [app has_pair]. destruct (a ++ t) eqn:E.
  - destruct a; [|discriminate E]. simpl in E. subst t. discriminate H.
  - rewrite IH. apply orb_true_r.
Qed.

(** No match of the percentage pattern starts before the digits that
    follow the period. *)
Lemma percent_no_early_match pre fs rest a b :
  all_digits fs -> 3 <= length fs ->
  has_pair is_digit is_percent (pre ++ chr "." :: fs) = false ->
  pre ++ [chr "."] = a ++ b -> b <> [] ->
  attempts percent_re (b ++ fs ++ chr "%" :: rest) = [].
Proof.
  intros Hfs Hlen Hpair Eab Hb.
  destruct (attempts percent_re (b ++ fs ++ chr "%" :: rest))
    as [|[[u g] r] l] eqn:Ea; [reflexivity|exfalso].
  destruct (@percent_attempt_shape (b ++ fs ++ chr "%" :: rest) u g r)
    as (n & HN & E); [rewrite Ea; now left|].
  destruct (exists_last Hb) as (b' & z & ->).
  rewrite app_assoc in Eab. apply app_inj_tail in Eab as [Epre Ez].
  subst z.
  assert (Hw : has_pair is_digit is_percent ((b' ++ [chr "."]) ++ fs) = false).
  { destruct (has_pair is_digit is_percent ((b' ++ [chr "."]) ++ fs)) eqn:K;
      [|reflexivity].
    rewrite <- Hpair. symmetry.
    replace (pre ++ chr "." :: fs) with (a ++ (b' ++ [chr "."]) ++ fs).
    - now apply has_pair_app_r.
    - rewrite Epre, <- !app_assoc. reflexivity. }
  rewrite app_assoc in E.
  apply app_eq_app in E as (k & [[E1 E2] | [E1 E2]]).
  - destruct k as [|c k].
    + rewrite app_nil_r in E1. rewrite <- E1, <- app_assoc in HN.
      simpl in HN. now apply numeral_not_long_fraction in HN.
    + simpl in E2. inversion E2; subst c.
      destruct (numeral_last HN) as (n' & d & -> & Hd).
      rewrite E1, <- app_assoc in Hw. simpl in Hw.
      rewrite has_pair_middle in Hw by (auto; reflexivity). discriminate Hw.
  - destruct k as [|c k].
    + rewrite app_nil_r in E1. rewrite E1, <- app_assoc in HN.
      simpl in HN. now apply numeral_not_long_fraction in HN.
    + simpl in E2. inversion E2; subst c.
      apply (numeral_no_percent HN). rewrite E1.
      apply in_or_app. right. now left.
Qed.

Lemma take_digits_run fs t :
  all_digits fs ->
  match t with [] => True | c :: _ => is_digit c = false end ->
  take_digits (fs ++ t) = (fs, t).
Proof.
  intros Hfs Ht. induction Hfs as [|c fs Hc _ IH]; simpl.
  - destruct t as [|c t]; [reflexivity|]. simpl. now rewrite Ht.
  - now rewrite Hc, IH.
Qed.

(** X3: with three or more decimals before the percent sign, only the
    decimals are read: in "12.345%" the percentage is 345, not 12.345. *)
Theorem percent_reads_long_decimals_alone text pre fs rest :
  text = pre ++ chr "." :: fs ++ chr "%" :: rest ->
  all_digits fs -> 3 <= length fs ->
  has_pair is_digit is_percent (pre ++ chr "." :: fs) = false ->
  has_pair is_dollar is_digit text = false ->
  exists x, PyFloat.float_of_str fs = Some x /\
            run (check_coupon_type text)
            = (Return (Some (py "percentage", x)), []).
Proof.
  intros -> Hfs Hlen Hpair Hdollar.
  assert (Ef : search fixed_amount_re
                 (pre ++ chr "." :: fs ++ chr "%" :: rest) = None).
  { pose proof (proj1 (search_fixed_pair
                         (pre ++ chr "." :: fs ++ chr "%" :: rest))) as K.
    destruct (search fixed_amount_re _); [|reflexivity].
    rewrite K in Hdollar; discriminate. }
  assert (Ep : search percent_re (pre ++ chr "." :: fs ++ chr "%" :: rest)
               = Some {| group0 := fs ++ [chr "%"]; groups := [fs] |}).
  { change (pre ++ chr "." :: fs ++ chr "%" :: rest)
      with (pre ++ [chr "."] ++ fs ++ chr "%" :: rest).
    rewrite app_assoc, search_skips_at.
    2:{ intros a b E Hb. now apply percent_no_early_match with (pre := pre) (a := a). }
    pose proof (attempts_number_head (fs ++ chr "%" :: rest)) as H.
    unfold leading_numeral in H.
    rewrite take_digits_run in H by (auto; reflexivity).
    destruct fs as [|d fs]; [simpl in Hlen; lia|].
    replace (leading_fraction (chr "%" :: rest))
      with (@nil char, chr "%" :: rest) in H by (destruct rest; reflexivity).
    destruct H as (tl & H). rewrite app_nil_r in H.
    cbn [search app]. unfold percent_re at 1. rewrite attempts_seq.
    cbn [attempts]. change (d :: fs ++ chr "%" :: rest)
      with ((d :: fs) ++ chr "%" :: rest).
    rewrite H. cbn. reflexivity. }
  assert (HN : Numeral fs).
  { apply NumInt; [|exact Hfs]. destruct fs; [simpl in Hlen; lia|discriminate]. }
  destruct (float_of_str_numeral HN) as (x & Ex & _).
  exists x. split; [exact Ex|].
  unfold check_coupon_type. rewrite Ef, Ep.
  unfold run, bind, PyOps.float, group1. simpl. now rewrite Ex.
Qed.

Lemma percent_reads_long_decimals_alone_witness :
  let text := py "Save 12.345% today" in
  text = py "Save 12" ++ chr "." :: py "345" ++ chr "%" :: py " today" /\
  all_digits (py "345") /\ 3 <= length (py "345") /\
  has_pair is_digit is_percent (py "Save 12" ++ chr "." :: py "345") = false /\
  has_pair is_dollar is_digit text = false /\
  exists x, PyFloat.float_of_str (py "345") = Some x /\
            run (check_coupon_type text)
            = (Return (Some (py "percentage", x)), []).
Proof.
  assert (Hd : all_digits (py "345")) by repeat constructor.
  assert (Hl : 3 <= length (py "345")) by apply le_n.
  split; [reflexivity|]. split; [exact Hd|]. split; [exact Hl|].
  split; [reflexivity|]. split; [reflexivity|].
  apply (@percent_reads_long_decimals_alone
           (py "Save 12.345% today") (py "Save 12") (py "345") (py " today")
           eq_refl Hd Hl eq_refl eq_refl).
Defined.

End PercentDecimals.

Section PriceOutcomes.

Import Bs4 Re AmazonPageParser Terms Scan PyFloat.

Lemma periods_remove_commas u :
  periods (remove_char (chr ",") u) = periods u.
Proof.
  unfold periods, remove_char. induction u as [|c u IH]; [reflexivity|].
  cbn [filter]. destruct (N.eqb_spec c (chr ",")) as [->|Hc]; cbn [negb].
  - rewrite IH. now rewrite count_occ_cons_neq by discriminate.
  - destruct (N.eq_dec c (chr ".")) as [->|Hp].
    + now rewrite !count_occ_cons_eq, IH by reflexivity.
    + now rewrite !count_occ_cons_neq, IH by assumption.
Qed.

(** X13: only the first run of digits, commas and periods of the price
    text counts: whatever precedes it (free of such characters) and
    whatever follows it, further numbers included, has no influence.
    The run is converted with its commas removed; if that fails, the
    conversion error is recorded. *)
Theorem price_reads_first_run
        self price_element price_text_tag pre num post :
  find (by_name_id "div" "corePrice_feature_div") (soup self)
  = Some price_element ->
  find (by_name_class "span" "a-offscreen") price_element
  = Some price_text_tag ->
  get_text_strip price_text_tag = pre ++ num ++ post ->
  plain pre -> num <> [] -> Forall (fun c => price_char c = true) num ->
  match post with [] => True | c :: _ => price_char c = false end ->
  run (parse_product_price self)
  = match float_of_str (remove_char (chr ",") num) with
    | Some x => (Return (Some x), [])
    | None =>
        (Return None,
         [error "Failed to convert price to float %s" [for_name self]])
    end.
Proof.
  intros H1 H2 Et Hpre Hne Hnum Hpost.
  rewrite (price_run _ H1 H2), Et, search_price_run by assumption.
  reflexivity.
Qed.

Lemma price_reads_first_run_witness :
  let self := Pages.price_page (py "From $5.99 to $10") in
  exists price_element price_text_tag,
    find (by_name_id "div" "corePrice_feature_div") (soup self)
    = Some price_element /\
    find (by_name_class "span" "a-offscreen") price_element
    = Some price_text_tag /\
    get_text_strip price_text_tag = py "From $" ++ py "5.99" ++ py " to $10" /\
    run (parse_product_price self)
    = (Return (Some (of_decimal 599 2)), []).
Proof.
  eexists _, _. split; [reflexivity|]. split; [reflexivity|].
  split; [reflexivity|].
  apply (@price_reads_first_run
           (Pages.price_page (py "From $5.99 to $10")) _ _
           (py "From $") (py "5.99") (py " to $10") eq_refl eq_refl eq_refl).
  - repeat constructor.
  - discriminate.
  - repeat constructor.
  - reflexivity.
Defined.

(** X14: a run holding two or more periods is never a price: the
    extractor returns [None] and records the conversion error. *)
Theorem price_two_periods_rejected
        self price_element price_text_tag pre num post :
  find (by_name_id "div" "corePrice_feature_div") (soup self)
  = Some price_element ->
  find (by_name_class "span" "a-offscreen") price_element
  = Some price_text_tag ->
  get_text_strip price_text_tag = pre ++ num ++ post ->
  plain pre -> Forall (fun c => price_char c = true) num ->
  match post with [] => True | c :: _ => price_char c = false end ->
  2 <= periods num ->
  run (parse_product_price self)
  = (Return None,
     [error "Failed to convert price to float %s" [for_name self]]).
Proof.
  intros H1 H2 Et Hpre Hnum Hpost Hp.
  assert (Hne : num <> []) by (intros ->; cbn in Hp; lia).
  rewrite (price_run _ H1 H2), Et, search_price_run by assumption.
  cbn [group0]. unfold float_of_str.
  destruct (parse_decimal (remove_char (chr ",") num)) as [[m k]|] eqn:E;
    [|reflexivity].
  apply parse_decimal_periods in E. rewrite periods_remove_commas in E. lia.
Qed.

Lemma price_two_periods_rejected_witness :
  let self := Pages.price_page (py "EUR 1.299.00") in
  exists price_element price_text_tag,
    find (by_name_id "div" "corePrice_feature_div") (soup self)
    = Some price_element /\
    find (by_name_class "span" "a-offscreen") price_element
    = Some price_text_tag /\
    get_text_strip price_text_tag = py "EUR " ++ py "1.299.00" ++ [] /\
    2 <= periods (py "1.299.00") /\
    run (parse_product_price self)
    = (Return None,
       [error "Failed to convert price to float %s" [py "for None"]]).
Proof.
  assert (Hp : 2 <= periods (py "1.299.00")) by apply le_n.
  eexists _, _. split; [reflexivity|]. split; [reflexivity|].
  split; [reflexivity|]. split; [exact Hp|].
  apply (@price_two_periods_rejected
           (Pages.price_page (py "EUR 1.299.00")) _ _
           (py "EUR ") (py "1.299.00") [] eq_refl eq_refl eq_refl).
  - repeat constructor.
  - repeat constructor.
  - exact I.
  - exact Hp.
Defined.

(** X15: the "Product price not found" warning stands for three different
    situations and nothing else: no price container, no price text node
    inside it, or a price text without any digit, comma or period. *)
Theorem price_not_found_iff self :
  run (parse_product_price self)
  = (Return None, [warning "Product price not found %s" [for_name self]])
  <-> find (by_name_id "div" "corePrice_feature_div") (soup self) = None
      \/ (exists price_element,
             find (by_name_id "div" "corePrice_feature_div") (soup self)
             = Some price_element /\
             find (by_name_class "span" "a-offscreen") price_element = None)
      \/ (exists price_element price_text_tag,
             find (by_name_id "div" "corePrice_feature_div") (soup self)
             = Some price_element /\
             find (by_name_class "span" "a-offscreen") price_element
             = Some price_text_tag /\
             plain (get_text_strip price_text_tag)).
Proof.
  split.
  - intros H.
    destruct (find (by_name_id "div" "corePrice_feature_div") (soup self))
      as [pe|] eqn:H1; [|now left].
    right.
    destruct (find (by_name_class "span" "a-offscreen") pe) as [t|] eqn:H2.
    2:{ left. now exists pe. }
    right. exists pe, t. split; [reflexivity|]. split; [exact H2|].
    rewrite (price_run _ H1 H2) in H.
    destruct (existsb price_char (get_text_strip t)) eqn:Ex.
    + destruct (@search_price_some (get_text_strip t)) as (m & Em).
      { rewrite plain_existsb. congruence. }
      rewrite Em in H.
      destruct (float_of_str (remove_char (chr ",") (group0 m)));
        discriminate H.
    + now apply plain_existsb.
  - intros [H1 | [(pe & H1 & H2) | (pe & t & H1 & H2 & Hp)]].
    + unfold parse_product_price. now rewrite H1.
    + unfold parse_product_price. now rewrite H1, H2.
    + now rewrite (price_run _ H1 H2), search_price_none.
Qed.

End PriceOutcomes.
